(** * TypeLense: monorepo detection, diagnostic collection and TSV report

    A shallow embedding of the TypeScript sources
      - [src/types/index.ts]                     (data model)
      - [src/detectors/*.ts]                     (detectors and orchestrator)
      - [src/collectors/ts-error-collector.ts]   (collection pipeline)
      - [src/generators/tsv-generator.ts]        (report writer)
    together with the properties the specification states about them.

    JavaScript strings are modelled as [string]; JavaScript numbers that
    the program only ever uses as integers (identifiers, diagnostic codes,
    line and column numbers) are modelled as [Z].  A JavaScript array holds
    fewer than 2^32 elements, so the identifier counter stays far below
    2^53 and its increments are exact. *)

From Stdlib Require Import List String Ascii ZArith Lia Bool Arith.
From Stdlib Require Import Numbers.DecimalString.
Import ListNotations.

Set Warnings "-register-all".

Local Open Scope string_scope.
Local Open Scope list_scope.

(* ===================================================================== *)
(** * Data model ([src/types/index.ts]) *)
(* ===================================================================== *)

Inductive MonorepoType : Type :=
| pnpm | npm | yarn | lerna | nx | turbo | none.

Definition MonorepoType_eqb (a b : MonorepoType) : bool :=
  match a, b with
  | pnpm, pnpm | npm, npm | yarn, yarn | lerna, lerna
  | nx, nx | turbo, turbo | none, none => true
  | _, _ => false
  end.

Record PackageInfo : Type := mkPackageInfo {
  pkg_name : string;
  pkg_path : string;
  pkg_version : option string
}.

Record MonorepoInfo : Type := mkMonorepoInfo {
  isMonorepo : bool;
  type : MonorepoType;
  rootPath : string;
  packages : list PackageInfo
}.

Record TypeScriptError : Type := mkTypeScriptError {
  id : Z;
  packageName : string;
  fileName : string;
  errorCode : Z;
  description : string;
  line : option Z;
  column : option Z;
  category : option string
}.

(** Outcome of a call that may throw (or of a promise that may reject). *)
Inductive Exc (A : Type) : Type :=
| Ok (a : A)
| Throw (msg : string).
Arguments Ok {A} a.
Arguments Throw {A} msg.

(* ===================================================================== *)
(** * JavaScript string primitives used by the program *)
(* ===================================================================== *)

Module JS.

Definition TAB : ascii := "009"%char.
Definition LF : ascii := "010"%char.
Definition CR : ascii := "013"%char.

(** [Array.prototype.join] on an array of strings. *)
Fixpoint join (sep : string) (xs : list string) : string :=
  match xs with
  | [] => EmptyString
  | [x] => x
  | x :: rest => x ++ sep ++ join sep rest
  end.

(** [String.prototype.split] with a one-character separator. *)
Fixpoint split (sep : ascii) (s : string) : list string :=
  match s with
  | EmptyString => [EmptyString]
  | String c s' =>
      if Ascii.eqb c sep then EmptyString :: split sep s'
      else match split sep s' with
           | [] => [String c EmptyString]
           | f :: fs => String c f :: fs
           end
  end.

(** [s.replace(/c/g, by)] for a one-character pattern. *)
Fixpoint replaceAll (c : ascii) (by_ : string) (s : string) : string :=
  match s with
  | EmptyString => EmptyString
  | String a s' =>
      if Ascii.eqb a c then by_ ++ replaceAll c by_ s'
      else String a (replaceAll c by_ s')
  end.

(** [Number.prototype.toString] on an integer. *)
Definition Number_toString (z : Z) : string :=
  NilZero.string_of_int (Z.to_int z).

(** [String.prototype.toLowerCase], on the ASCII range. *)
Definition lowerChar (c : ascii) : ascii :=
  let n := nat_of_ascii c in
  if (65 <=? n)%nat && (n <=? 90)%nat then ascii_of_nat (n + 32) else c.

Fixpoint toLowerCase (s : string) : string :=
  match s with
  | EmptyString => EmptyString
  | String c s' => String (lowerChar c) (toLowerCase s')
  end.

(** Membership of a character in a string. *)
Fixpoint occurs (c : ascii) (s : string) : bool :=
  match s with
  | EmptyString => false
  | String a s' => Ascii.eqb a c || occurs c s'
  end.

End JS.

(* ===================================================================== *)
(** * Report writer ([src/generators/tsv-generator.ts]) *)
(* ===================================================================== *)

Module TsvGenerator.

Definition tab : string := String JS.TAB EmptyString.
Definition newline : string := String JS.LF EmptyString.

Definition headers : list string :=
  ["id"; "package_name"; "file_name"; "error_code"; "description"].

(** [escapeField]: tabs and newlines become a space, carriage returns
    are dropped. *)
Definition escapeField (field : string) : string :=
  JS.replaceAll JS.CR EmptyString
    (JS.replaceAll JS.LF " " (JS.replaceAll JS.TAB " " field)).

Definition row (error : TypeScriptError) : list string :=
  [ JS.Number_toString (id error);
    escapeField (packageName error);
    escapeField (fileName error);
    JS.Number_toString (errorCode error);
    escapeField (description error) ].

Definition rows (errors : list TypeScriptError) : list string :=
  JS.join tab headers :: map (fun error => JS.join tab (row error)) errors.

(** [generate] hands this text to [writeFile]; the model returns it. *)
Definition generate (errors : list TypeScriptError) : string :=
  JS.join newline (rows errors).

End TsvGenerator.

(** A field value is clean when it holds no raw tab, newline or carriage
    return. *)
Definition cleanField (f : string) : Prop :=
  JS.occurs JS.TAB f = false /\
  JS.occurs JS.LF f = false /\
  JS.occurs JS.CR f = false.

(** Digits, and a test on every character of a string. *)
Definition isDigit (c : ascii) : bool :=
  let n := nat_of_ascii c in (48 <=? n)%nat && (n <=? 57)%nat.

Fixpoint allChars (p : ascii -> bool) (s : string) : bool :=
  match s with
  | EmptyString => true
  | String a s' => p a && allChars p s'
  end.

(* ===================================================================== *)
(** * The type-checking engine (the [typescript] compiler API)

    The engine is an external collaborator.  The model keeps the shapes
    the collector inspects and treats every call as one that may throw. *)
(* ===================================================================== *)

Module ts.

(** [enum DiagnosticCategory { Warning, Error, Suggestion, Message }] *)
Inductive DiagnosticCategory : Type :=
| Warning | Error | Suggestion | Message.

(** The reverse mapping [ts.DiagnosticCategory[c]]. *)
Definition DiagnosticCategory_name (c : DiagnosticCategory) : string :=
  match c with
  | Warning => "Warning"
  | Error => "Error"
  | Suggestion => "Suggestion"
  | Message => "Message"
  end.

Inductive DiagnosticMessageChain : Type :=
| MessageChain (messageText : string) (next : list DiagnosticMessageChain).

(** [messageText: string | DiagnosticMessageChain] *)
Inductive MessageText : Type :=
| Text (s : string)
| Chain (c : DiagnosticMessageChain).

Record SourceFile : Type := mkSourceFile {
  sf_fileName : string;
  (** 0-based [(line, character)] of a character offset *)
  getLineAndCharacterOfPosition : Z -> Z * Z
}.

Record Diagnostic : Type := mkDiagnostic {
  category : DiagnosticCategory;
  code : Z;
  messageText : MessageText;
  file : option SourceFile;
  start : option Z
}.

Section Engine.
(** The parsed JSON of a configuration file and the compiler options
    are opaque to the collector. *)
Variables Config CompilerOptions : Type.

Record ConfigFile : Type := mkConfigFile {
  config : Config;
  error : option Diagnostic
}.

Record ParsedCommandLine : Type := mkParsedCommandLine {
  errors : list Diagnostic;
  fileNames : list string;
  options : CompilerOptions
}.

Record Program : Type := mkProgram {
  getSemanticDiagnostics : Exc (list Diagnostic);
  getSyntacticDiagnostics : Exc (list Diagnostic);
  getDeclarationDiagnostics : Exc (list Diagnostic);
  getConfigFileParsingDiagnostics : Exc (list Diagnostic)
}.

Record Compiler : Type := mkCompiler {
  readConfigFile : string -> Exc ConfigFile;
  parseJsonConfigFileContent : Config -> string -> Exc ParsedCommandLine;
  createProgram : list string -> CompilerOptions -> Exc Program
}.
End Engine.

Arguments mkConfigFile {Config}.
Arguments mkParsedCommandLine {CompilerOptions}.
Arguments mkCompiler {Config CompilerOptions}.
Arguments config {Config}.
Arguments error {Config}.
Arguments errors {CompilerOptions}.
Arguments fileNames {CompilerOptions}.
Arguments options {CompilerOptions}.
Arguments readConfigFile {Config CompilerOptions}.
Arguments parseJsonConfigFileContent {Config CompilerOptions}.
Arguments createProgram {Config CompilerOptions}.

End ts.

(* ===================================================================== *)
(** * The host: [node:fs], [node:path], [process] and [fast-glob] *)
(* ===================================================================== *)

(** [interface PackageJson] of [npm-detector.ts]:
    [workspaces?: string[] | { packages?: string[] }]. *)
Inductive Workspaces : Type :=
| WorkspacesArray (patterns : list string)
| WorkspacesObject (packages : option (list string)).

Record PackageJson : Type := mkPackageJson {
  pj_name : option string;
  pj_version : option string;
  pj_workspaces : option Workspaces
}.

(** [interface LernaJson] *)
Record LernaJson : Type := mkLernaJson {
  lerna_packages : option (list string);
  lerna_version : option string
}.

(** [interface NxJson]: [projects?: Record<string, string>], kept in
    insertion order as [Object.entries] yields it. *)
Record NxJson : Type := mkNxJson {
  nx_projects : option (list (string * string))
}.

(** [interface PnpmWorkspace] *)
Record PnpmWorkspace : Type := mkPnpmWorkspace {
  pnpm_packages : option (list string)
}.

(** What the program can observe of its host.  A [read*] field is
    [readFileSync] followed by the parser, at the interface type the
    caller casts the result to; [None] (or [Throw]) stands for a file
    that is missing, unreadable or unparseable. *)
Record Host : Type := mkHost {
  existsSync : string -> bool;
  readPackageJson : string -> option PackageJson;
  readLernaJson : string -> option LernaJson;
  readNxJson : string -> option NxJson;
  readPnpmWorkspace : string -> Exc PnpmWorkspace;
  (** [fg(pattern, { cwd, absolute: false })] *)
  fg : string -> string -> list string;
  path_resolve : string -> string -> string;
  path_join : string -> string -> string;
  path_dirname : string -> string;
  path_relative : string -> string -> string;
  process_cwd : string
}.

(** JavaScript truthiness of an optional string: [undefined] and the empty
    string are falsy. *)
Definition truthyString (s : option string) : option string :=
  match s with
  | Some EmptyString => None
  | other => other
  end.


(* ===================================================================== *)
(** * Collection pipeline ([src/collectors/ts-error-collector.ts]) *)
(* ===================================================================== *)

(** [type ProgressCallback]: the listener is called with the name of a
    unit, its position and the number of units; the call returns or
    throws. *)
Definition ProgressCallback : Type := string -> nat -> nat -> Exc unit.

(** A listener whose calls all return, when [supplied]; no listener
    otherwise. *)
Definition returningListener (supplied : bool) : option ProgressCallback :=
  if supplied then Some (fun _ _ _ => Ok tt) else None.

(** What a run of the collector shows to the outside besides its result:
    calls of the progress listener and lines on the console. *)
Inductive Event : Type :=
| Progress (packageName : string) (current total : nat)
| ConsoleWarn (packageName : string)
| ConsoleError (packageName : string) (error : string).

(** The two private fields of [TypeScriptErrorCollector], and the events
    emitted so far.  One [collect] runs on a collector at a time (the
    exported [collectTypeScriptErrors] makes a collector of its own for each
    call). *)
Record Collector : Type := mkCollector {
  errorIdCounter : Z;
  interrupted : bool;
  events : list Event
}.

(** A computation over the collector that returns or throws. *)
Definition M (A : Type) : Type := Collector -> Exc A * Collector.

Definition ret {A : Type} (a : A) : M A := fun st => (Ok a, st).

Definition bind {A B : Type} (m : M A) (k : A -> M B) : M B :=
  fun st =>
    match m st with
    | (Ok a, st') => k a st'
    | (Throw e, st') => (Throw e, st')
    end.

Definition throw {A : Type} (msg : string) : M A := fun st => (Throw msg, st).

(** [try { body } catch (error) { handler }] *)
Definition try_catch {A : Type} (body : M A) (handler : string -> M A) : M A :=
  fun st =>
    match body st with
    | (Ok a, st') => (Ok a, st')
    | (Throw e, st') => handler e st'
    end.

(** A call into the engine: the collector is untouched. *)
Definition call {A : Type} (r : Exc A) : M A := fun st => (r, st).

Definition emit (e : Event) : M unit :=
  fun st =>
    (Ok tt, mkCollector (errorIdCounter st) (interrupted st) (events st ++ [e])).

Definition when (b : bool) (m : M unit) : M unit := if b then m else ret tt.

(** [this.interrupted] *)
Definition isInterrupted : M bool := fun st => (Ok (interrupted st), st).

(** [++this.errorIdCounter] *)
Definition nextErrorId : M Z :=
  fun st =>
    let n := (errorIdCounter st + 1)%Z in
    (Ok n, mkCollector n (interrupted st) (events st)).

(** [this.errorIdCounter = 0; this.interrupted = false] *)
Definition reset : M unit :=
  fun st => (Ok tt, mkCollector 0 false (events st)).

Declare Scope collector_scope.
Delimit Scope collector_scope with collector.
Notation "x <- m ;; k" := (bind m (fun x => k))
  (at level 61, m at next level, right associativity) : collector_scope.
Notation "m ;; k" := (bind m (fun _ => k))
  (at level 61, right associativity) : collector_scope.

Section Collector.

Variables Config CompilerOptions : Type.
Variable host : Host.
Variable compiler : ts.Compiler Config CompilerOptions.

(** [sigint i] tells whether a SIGINT reaches the process while iteration
    [i] of the package loop is suspended in
    [await new Promise((resolve) => setImmediate(resolve))].  Signal
    handlers run from the event loop, and this is the only point where
    [collect] gives control back to it: the other two [await]s wait for
    [collectFromPath], which runs to completion without suspending.  The
    handler is installed by [process.on] at the start of [collect] and
    removed in its [finally] block. *)
Variable sigint : nat -> bool.

Local Open Scope collector_scope.

(** The [interruptHandler] runs whenever a signal arrived during the
    yield. *)
Definition awaitSetImmediate (i : nat) : M unit :=
  fun st =>
    (Ok tt,
     if sigint i then mkCollector (errorIdCounter st) true (events st) else st).

(** [onProgress?.(packageName, current, total)]: when a listener is
    supplied the call is made, and what the listener throws is thrown on:
    [collect] has no handler around the call. *)
Definition reportProgress (onProgress : option ProgressCallback)
    (packageName : string) (current total : nat) : M unit :=
  match onProgress with
  | None => ret tt
  | Some listener =>
      emit (Progress packageName current total) ;;
      call (listener packageName current total)
  end.

(** A message text inside a template literal. *)
Definition templateText (m : ts.MessageText) : string :=
  match m with
  | ts.Text s => s
  | ts.Chain _ => "[object Object]"
  end.

(** The body of the [diagnostics.map] callback of [formatDiagnostics]. *)
Definition formatDiagnostic (packageName : string) (diagnostic : ts.Diagnostic)
  : M TypeScriptError :=
  let message :=
    match ts.messageText diagnostic with
    | ts.Text s => s
    | ts.Chain (ts.MessageChain s _) => s
    end in
  let '(fileName, line, column) :=
    match ts.file diagnostic, ts.start diagnostic with
    | Some file, Some start =>
        let '(lineNum, character) :=
          ts.getLineAndCharacterOfPosition file start in
        (path_relative host (process_cwd host) (ts.sf_fileName file),
         Some (lineNum + 1)%Z, Some (character + 1)%Z)
    | _, _ => ("unknown", None, None)
    end in
  let category :=
    JS.toLowerCase (ts.DiagnosticCategory_name (ts.category diagnostic)) in
  id <- nextErrorId ;;
  ret (mkTypeScriptError id packageName fileName (ts.code diagnostic) message
         line column (Some category)).

Fixpoint formatDiagnostics (diagnostics : list ts.Diagnostic)
    (packageName : string) : M (list TypeScriptError) :=
  match diagnostics with
  | [] => ret []
  | diagnostic :: rest =>
      e <- formatDiagnostic packageName diagnostic ;;
      es <- formatDiagnostics rest packageName ;;
      ret (e :: es)
  end.

Definition collectErrorsFromProject (tsconfigPath packageName : string)
  : M (list TypeScriptError) :=
  configFile <- call (ts.readConfigFile compiler tsconfigPath) ;;
  match ts.error configFile with
  | Some error =>
      throw ("Failed to read tsconfig.json: "
               ++ templateText (ts.messageText error))
  | None =>
      parsedConfig <-
        call (ts.parseJsonConfigFileContent compiler (ts.config configFile)
                (path_dirname host tsconfigPath)) ;;
      if (0 <? List.length (ts.errors parsedConfig))%nat then
        formatDiagnostics (ts.errors parsedConfig) packageName
      else
        program <-
          call (ts.createProgram compiler (ts.fileNames parsedConfig)
                  (ts.options parsedConfig)) ;;
        semantic <- call (ts.getSemanticDiagnostics program) ;;
        syntactic <- call (ts.getSyntacticDiagnostics program) ;;
        declaration <- call (ts.getDeclarationDiagnostics program) ;;
        configParsing <- call (ts.getConfigFileParsingDiagnostics program) ;;
        formatDiagnostics
          (semantic ++ syntactic ++ declaration ++ configParsing) packageName
  end.

Definition findTsConfig (packagePath : string) : option string :=
  let tsconfigPath := path_join host packagePath "tsconfig.json" in
  if existsSync host tsconfigPath then Some tsconfigPath else None.

Definition collectFromPath (packagePath packageName : string)
  : M (list TypeScriptError) :=
  stopped <- isInterrupted ;;
  if stopped then ret [] else
  match findTsConfig packagePath with
  | None =>
      stopped <- isInterrupted ;;
      when (negb stopped) (emit (ConsoleWarn packageName)) ;;
      ret []
  | Some tsconfigPath =>
      try_catch
        (stopped <- isInterrupted ;;
         if stopped then ret []
         else collectErrorsFromProject tsconfigPath packageName)
        (fun error =>
           stopped <- isInterrupted ;;
           when (negb stopped) (emit (ConsoleError packageName error)) ;;
           ret [])
  end.

(** The [for] loop of [collect] from index [i] on: [pkgs] is the part of
    [monorepoInfo.packages] still to visit and [allErrors] the array built so
    far. *)
Fixpoint collectLoop (onProgress : option ProgressCallback) (total i : nat)
    (pkgs : list PackageInfo) (allErrors : list TypeScriptError)
  : M (list TypeScriptError) :=
  match pkgs with
  | [] => ret allErrors
  | pkg :: rest =>
      stopped <- isInterrupted ;;
      if stopped then throw "Interrupted by user" else
      reportProgress onProgress (pkg_name pkg) (i + 1) total ;;
      awaitSetImmediate i ;;
      errors <- collectFromPath (pkg_path pkg) (pkg_name pkg) ;;
      collectLoop onProgress total (S i) rest (allErrors ++ errors)
  end.

Definition collect (rootPath : string) (monorepoInfo : MonorepoInfo)
    (onProgress : option ProgressCallback) : M (list TypeScriptError) :=
  reset ;;
  if (List.length (packages monorepoInfo) =? 0)%nat then
    reportProgress onProgress "root" 1 1 ;;
    errors <- collectFromPath rootPath "root" ;;
    ret ([] ++ errors)
  else
    collectLoop onProgress (List.length (packages monorepoInfo)) 0
      (packages monorepoInfo) [].

End Collector.

Arguments collect {Config CompilerOptions}.
Arguments collectLoop {Config CompilerOptions}.
Arguments collectFromPath {Config CompilerOptions}.
Arguments collectErrorsFromProject {Config CompilerOptions}.

(* ===================================================================== *)
(** * Detectors ([src/detectors/*.ts]) *)
(* ===================================================================== *)

(** [interface MonorepoDetector].  The built-in detectors never throw; a
    caller-supplied one may. *)
Record MonorepoDetector : Type := mkDetector {
  name : MonorepoType;
  detect : string -> Exc bool;
  getPackages : string -> Exc (list PackageInfo)
}.

Section Detectors.

Variable host : Host.

(** [BaseDetector.fileExists], [BaseDetector.resolvePath] *)
Definition fileExists (filePath : string) : bool := existsSync host filePath.
Definition resolvePath (rootPath p : string) : string :=
  path_resolve host rootPath p.

(** The inner loop every detector runs over the manifests a glob matched:
    a manifest that cannot be read, or has no name, is skipped. *)
Definition packagesOfFiles (rootPath : string) (files : list string)
  : list PackageInfo :=
  flat_map
    (fun file =>
       let packagePath :=
         path_dirname host (path_resolve host rootPath file) in
       match readPackageJson host (path_resolve host rootPath file) with
       | Some pkgJson =>
           match truthyString (pj_name pkgJson) with
           | Some n => [mkPackageInfo n packagePath (pj_version pkgJson)]
           | None => []
           end
       | None => []
       end)
    files.

(** The outer loop of the npm, lerna and pnpm detectors over glob
    patterns. *)
Definition packagesOfPatterns (rootPath : string) (patterns : list string)
  : list PackageInfo :=
  flat_map
    (fun pattern =>
       packagesOfFiles rootPath
         (fg host (path_join host pattern "package.json") rootPath))
    patterns.

(** ** [NpmDetector] and [YarnDetector] ([npm-detector.ts]) *)

Definition NpmDetector_detect (rootPath : string) : bool :=
  let packageJsonPath := resolvePath rootPath "package.json" in
  match readPackageJson host packageJsonPath with
  | None => false
  | Some packageJson =>
      match pj_workspaces packageJson with
      | None => false
      | Some (WorkspacesArray _) => true
      | Some (WorkspacesObject pkgs) =>
          match pkgs with
          | Some _ => true
          | None => false
          end
      end
  end.

Definition NpmDetector_getPackages (rootPath : string) : list PackageInfo :=
  let packageJsonPath := resolvePath rootPath "package.json" in
  match readPackageJson host packageJsonPath with
  | None => []
  | Some packageJson =>
      match pj_workspaces packageJson with
      | None => []
      | Some workspaces =>
          let workspacePatterns :=
            match workspaces with
            | WorkspacesArray patterns => patterns
            | WorkspacesObject (Some patterns) => patterns
            | WorkspacesObject None => []
            end in
          packagesOfPatterns rootPath workspacePatterns
      end
  end.

Definition NpmDetector : MonorepoDetector :=
  mkDetector npm
    (fun rootPath => Ok (NpmDetector_detect rootPath))
    (fun rootPath => Ok (NpmDetector_getPackages rootPath)).

Definition YarnDetector_detect (rootPath : string) : bool :=
  let hasWorkspaces := NpmDetector_detect rootPath in
  let hasYarnLock := fileExists (resolvePath rootPath "yarn.lock") in
  hasWorkspaces && hasYarnLock.

Definition YarnDetector : MonorepoDetector :=
  mkDetector yarn
    (fun rootPath => Ok (YarnDetector_detect rootPath))
    (fun rootPath => Ok (NpmDetector_getPackages rootPath)).

(** ** [PnpmDetector] *)

Definition PnpmDetector_detect (rootPath : string) : bool :=
  fileExists (resolvePath rootPath "pnpm-workspace.yaml").

Definition PnpmDetector_getPackages (rootPath : string) : list PackageInfo :=
  let workspaceFile := resolvePath rootPath "pnpm-workspace.yaml" in
  if negb (fileExists workspaceFile) then []
  else
    match readPnpmWorkspace host workspaceFile with
    | Throw _ => []
    | Ok workspace =>
        match pnpm_packages workspace with
        | None => []
        | Some [] => []
        | Some patterns => packagesOfPatterns rootPath patterns
        end
    end.

Definition PnpmDetector : MonorepoDetector :=
  mkDetector pnpm
    (fun rootPath => Ok (PnpmDetector_detect rootPath))
    (fun rootPath => Ok (PnpmDetector_getPackages rootPath)).

(** ** [LernaDetector] *)

Definition LernaDetector_detect (rootPath : string) : bool :=
  fileExists (resolvePath rootPath "lerna.json").

Definition LernaDetector_getPackages (rootPath : string) : list PackageInfo :=
  let lernaJsonPath := resolvePath rootPath "lerna.json" in
  match readLernaJson host lernaJsonPath with
  | None => []
  | Some lernaJson =>
      let packagePatterns :=
        match lerna_packages lernaJson with
        | Some patterns => patterns
        | None => ["packages/*"]
        end in
      packagesOfPatterns rootPath packagePatterns
  end.

Definition LernaDetector : MonorepoDetector :=
  mkDetector lerna
    (fun rootPath => Ok (LernaDetector_detect rootPath))
    (fun rootPath => Ok (LernaDetector_getPackages rootPath)).

(** ** [NxDetector] ([nx-detector.ts]) *)

Definition NxDetector_detect (rootPath : string) : bool :=
  fileExists (resolvePath rootPath "nx.json")
  || fileExists (resolvePath rootPath "workspace.json").

Definition NxDetector_getPackages (rootPath : string) : list PackageInfo :=
  let nxJson := readNxJson host (resolvePath rootPath "nx.json") in
  let workspaceJson := readNxJson host (resolvePath rootPath "workspace.json") in
  let projectsOf (j : option NxJson) : option (list (string * string)) :=
    match j with
    | Some json => nx_projects json
    | None => None
    end in
  let projectPaths :=
    match projectsOf nxJson with
    | Some projects => projects
    | None =>
        match projectsOf workspaceJson with
        | Some projects => projects
        | None => []
        end
    end in
  let pkgs :=
    map
      (fun '(projectName, projectPath) =>
         let fullPath := path_resolve host rootPath projectPath in
         let packageJsonPath := path_join host fullPath "package.json" in
         if fileExists packageJsonPath then
           let pkgJson := readPackageJson host packageJsonPath in
           mkPackageInfo
             match pkgJson with
             | Some json =>
                 match truthyString (pj_name json) with
                 | Some n => n
                 | None => projectName
                 end
             | None => projectName
             end
             fullPath
             match pkgJson with
             | Some json => pj_version json
             | None => None
             end
         else mkPackageInfo projectName fullPath None)
      projectPaths in
  if (List.length pkgs =? 0)%nat then
    flat_map
      (fun pattern => packagesOfFiles rootPath (fg host pattern rootPath))
      ["packages/*/package.json"; "apps/*/package.json"; "libs/*/package.json"]
  else pkgs.

Definition NxDetector : MonorepoDetector :=
  mkDetector nx
    (fun rootPath => Ok (NxDetector_detect rootPath))
    (fun rootPath => Ok (NxDetector_getPackages rootPath)).

(** ** [TurboDetector] *)

(** [turbo-detector.ts] is not among the sources.  Its two methods are
    parameters of the development. *)
Variable turbo_detect : string -> Exc bool.
Variable turbo_getPackages : string -> Exc (list PackageInfo).

(** Modelled from the spec: the class [TurboDetector] of the missing
    [turbo-detector.ts]; the specification names its variant [turbo], and
    the methods are left abstract. *)
Definition TurboDetector : MonorepoDetector :=
  mkDetector turbo turbo_detect turbo_getPackages.

(** ** The orchestrator ([src/detectors/index.ts]) *)

Definition DEFAULT_DETECTORS : list MonorepoDetector :=
  [ TurboDetector; PnpmDetector; YarnDetector; NpmDetector; LernaDetector;
    NxDetector ].

(** The [for (const detector of detectors)] loop: [Ok None] when it runs to
    its end without a [return]. *)
Fixpoint tryDetectors (rootPath : string) (detectors : list MonorepoDetector)
  : Exc (option MonorepoInfo) :=
  match detectors with
  | [] => Ok None
  | detector :: rest =>
      match detect detector rootPath with
      | Throw e => Throw e
      | Ok true =>
          match getPackages detector rootPath with
          | Throw e => Throw e
          | Ok pkgs => Ok (Some (mkMonorepoInfo true (name detector) rootPath pkgs))
          end
      | Ok false => tryDetectors rootPath rest
      end
  end.

Definition detectMonorepo (rootPath : string)
    (customDetectors : list MonorepoDetector) : Exc MonorepoInfo :=
  let detectors := customDetectors ++ DEFAULT_DETECTORS in
  match tryDetectors rootPath detectors with
  | Throw e => Throw e
  | Ok (Some info) => Ok info
  | Ok None =>
      let packageJsonPath := path_resolve host rootPath "package.json" in
      match readPackageJson host packageJsonPath with
      | Some packageJson =>
          let singlePackage :=
            mkPackageInfo
              match truthyString (pj_name packageJson) with
              | Some n => n
              | None => "unknown"
              end
              rootPath
              (pj_version packageJson) in
          Ok (mkMonorepoInfo false none rootPath [singlePackage])
      | None => Ok (mkMonorepoInfo false none rootPath [])
      end
  end.

End Detectors.

(* ===================================================================== *)
(** * Vocabulary of the properties *)
(* ===================================================================== *)

(** The identifiers of [es] are [c + 1], [c + 2], ... in this order. *)
Fixpoint numberedFrom (c : Z) (es : list TypeScriptError) : Prop :=
  match es with
  | [] => True
  | e :: rest => id e = (c + 1)%Z /\ numberedFrom (c + 1) rest
  end.

(** The position of a raw diagnostic as its record must show it. *)
Definition positionConverted (diagnostic : ts.Diagnostic) (e : TypeScriptError)
  : Prop :=
  match ts.file diagnostic, ts.start diagnostic with
  | Some file, Some start =>
      line e
      = Some (fst (ts.getLineAndCharacterOfPosition file start) + 1)%Z /\
      column e
      = Some (snd (ts.getLineAndCharacterOfPosition file start) + 1)%Z
  | _, _ => line e = None /\ column e = None /\ fileName e = "unknown"
  end.

Section Units.

Context {Config CompilerOptions : Type}.
Variable host : Host.
Variable compiler : ts.Compiler Config CompilerOptions.

(** What [collectFromPath] returns for the unit [pkg] when it runs with
    the counter at [c] and no interruption pending. *)
Definition unitRecords (pkg : PackageInfo) (c : Z) : list TypeScriptError :=
  match fst (collectFromPath host compiler (pkg_path pkg) (pkg_name pkg)
               (mkCollector c false [])) with
  | Ok es => es
  | Throw _ => []
  end.

(** The same for a list of units visited in order, the counter running on
    from one unit to the next. *)
Fixpoint recordsFrom (c : Z) (pkgs : list PackageInfo) : list TypeScriptError :=
  match pkgs with
  | [] => []
  | pkg :: rest =>
      let es := unitRecords pkg c in
      es ++ recordsFrom (c + Z.of_nat (List.length es)) rest
  end.

(** The unit has a configuration file, and collecting from it throws
    [msg]. *)
Definition unitThrows (pkg : PackageInfo) (msg : string) : Prop :=
  exists tsconfigPath,
    findTsConfig host (pkg_path pkg) = Some tsconfigPath /\
    fst (collectErrorsFromProject host compiler tsconfigPath (pkg_name pkg)
           (mkCollector 0 false [])) = Throw msg.

End Units.

(** Two collectors that agree on the private fields of the class. *)
Definition sameFields (st1 st2 : Collector) : Prop :=
  errorIdCounter st1 = errorIdCounter st2 /\
  interrupted st1 = interrupted st2.

(** A computation whose outcome and effect on the fields depend on the
    fields only, not on the events emitted before. *)
Definition Stable {A : Type} (m : M A) : Prop :=
  forall st1 st2, sameFields st1 st2 ->
    fst (m st1) = fst (m st2) /\ sameFields (snd (m st1)) (snd (m st2)).

(** The condition the specification's table gives for the npm variant: the
    [workspaces] field is an array, or an object whose [packages] array is
    non-empty. *)
Definition workspacesArrayOrNonEmptyPackages (packageJson : PackageJson) : Prop :=
  (exists patterns, pj_workspaces packageJson = Some (WorkspacesArray patterns)) \/
  (exists p ps,
      pj_workspaces packageJson = Some (WorkspacesObject (Some (p :: ps)))).

(** The condition [NpmDetector.detect] tests: the [workspaces] field is an
    array, or an object that has a [packages] array. *)
Definition workspacesArrayOrPackages (packageJson : PackageJson) : Prop :=
  (exists patterns, pj_workspaces packageJson = Some (WorkspacesArray patterns)) \/
  (exists patterns,
      pj_workspaces packageJson = Some (WorkspacesObject (Some patterns))).

(** No detector of the list recognises the root. *)
Definition noneDetects (rootPath : string) (detectors : list MonorepoDetector)
  : Prop :=
  Forall (fun d => detect d rootPath = Ok false) detectors.

(* ===================================================================== *)
(** * A sample repository

    Concrete hosts, engines and detectors on which the definitions above
    are run. *)
(* ===================================================================== *)

Module Sample.

Definition inList (p : string) (l : list string) : bool :=
  existsb (String.eqb p) l.

Fixpoint lookup {A : Type} (p : string) (l : list (string * A)) : option A :=
  match l with
  | [] => None
  | (k, v) :: rest => if String.eqb p k then Some v else lookup p rest
  end.

Definition joinPath (a b : string) : string := a ++ "/" ++ b.

Definition dirname (p : string) : string :=
  JS.join "/" (removelast (JS.split "/"%char p)).

Definition relative (from to : string) : string :=
  if String.prefix (from ++ "/") to
  then String.substring (S (String.length from))
         (String.length to - S (String.length from)) to
  else to.

(** A host holding the listed files and manifests, scanned from [/repo]. *)
Definition hostOf (files : list string)
    (manifests : list (string * PackageJson)) : Host :=
  mkHost
    (fun p => inList p files || match lookup p manifests with
                                | Some _ => true
                                | None => false
                                end)
    (fun p => lookup p manifests)
    (fun _ => None)
    (fun _ => None)
    (fun _ => Throw "ENOENT")
    (fun _ _ => [])
    joinPath joinPath dirname relative "/repo".

(** ** Diagnostics *)

Definition indexTs : ts.SourceFile :=
  ts.mkSourceFile "/repo/packages/a/src/index.ts"
    (fun pos => (pos / 80, pos mod 80)%Z).

Definition notAssignable : ts.Diagnostic :=
  ts.mkDiagnostic ts.Error 2322
    (ts.Text "Type 'string' is not assignable to type 'number'.")
    (Some indexTs) (Some 165%Z).

Definition badArgument : ts.Diagnostic :=
  ts.mkDiagnostic ts.Error 2345
    (ts.Chain
       (ts.MessageChain "Argument of type 'A' is not assignable."
          [ts.MessageChain "Property 'x' is missing." []]))
    (Some indexTs) (Some 0%Z).

Definition unknownOption : ts.Diagnostic :=
  ts.mkDiagnostic ts.Error 5023
    (ts.Text "Unknown compiler option 'strictt'.") None None.

Definition unexpectedToken : ts.Diagnostic :=
  ts.mkDiagnostic ts.Error 1005 (ts.Text "'}' expected.") None (Some 12%Z).

(** ** Four packages

    [a] type-checks with two diagnostics; the configuration of [b] is not
    valid JSON, so reading it reports an error; the configuration of [c]
    reads fine and parses with one error; [d] has no configuration;
    creating the program of [e] throws. *)

Definition pkgA : PackageInfo := mkPackageInfo "a" "/repo/packages/a" None.
Definition pkgB : PackageInfo := mkPackageInfo "b" "/repo/packages/b" None.
Definition pkgC : PackageInfo := mkPackageInfo "c" "/repo/packages/c" (Some "1.0.0").
Definition pkgD : PackageInfo := mkPackageInfo "d" "/repo/packages/d" None.
Definition pkgE : PackageInfo := mkPackageInfo "e" "/repo/packages/e" None.

Definition host : Host :=
  hostOf
    [ "/repo/packages/a/tsconfig.json"; "/repo/packages/b/tsconfig.json";
      "/repo/packages/c/tsconfig.json"; "/repo/packages/e/tsconfig.json";
      "/repo/tsconfig.json" ]
    [ ("/repo/package.json", mkPackageJson (Some "foo") None None) ].

(** The engine: a configuration is stood for by its path. *)
Definition compiler : ts.Compiler string unit :=
  ts.mkCompiler
    (fun p =>
       if String.eqb p "/repo/packages/b/tsconfig.json"
       then Ok (ts.mkConfigFile p (Some unexpectedToken))
       else Ok (ts.mkConfigFile p None))
    (fun cfg _ =>
       if String.eqb cfg "/repo/packages/c/tsconfig.json"
       then Ok (ts.mkParsedCommandLine [unknownOption] [] tt)
       else Ok (ts.mkParsedCommandLine [] [cfg] tt))
    (fun files _ =>
       if inList "/repo/packages/a/tsconfig.json" files
       then Ok (ts.mkProgram (Ok [notAssignable]) (Ok []) (Ok [badArgument]) (Ok []))
       else if inList "/repo/packages/e/tsconfig.json" files
       then Throw "Debug Failure."
       else Ok (ts.mkProgram (Ok []) (Ok []) (Ok []) (Ok []))).

Definition info (pkgs : list PackageInfo) : MonorepoInfo :=
  mkMonorepoInfo true pnpm "/repo" pkgs.

Definition noSignal : nat -> bool := fun _ => false.

(** A SIGINT arrives while iteration [k] of the loop yields. *)
Definition signalAt (k : nat) : nat -> bool := fun i => Nat.eqb i k.

(** A collector as a previous run may have left it. *)
Definition used : Collector := mkCollector 41 true [].

Definition run (sigint : nat -> bool) (pkgs : list PackageInfo)
  : Exc (list TypeScriptError) * Collector :=
  collect host compiler sigint "/repo" (info pkgs) (returningListener true)
    used.

(** ** Roots for the detectors *)

(** A manifest whose [workspaces] is an object with an empty [packages]
    array: [{ "name": "foo", "workspaces": { "packages": [] } }]. *)
Definition emptyWorkspacesHost : Host :=
  hostOf []
    [ ("/repo/package.json",
       mkPackageJson (Some "foo") None (Some (WorkspacesObject (Some [])))) ].

(** npm workspaces under a turbo configuration file. *)
Definition turboHost : Host :=
  hostOf ["/repo/turbo.json"]
    [ ("/repo/package.json",
       mkPackageJson (Some "mono") None (Some (WorkspacesArray ["packages/*"]))) ].

(** A directory without a manifest. *)
Definition emptyHost : Host := hostOf [] [].

(** Modelled from the spec: the [detect] and [getPackages] of the missing
    [turbo-detector.ts], after the table of variants: a turbo
    configuration file is present and either the manifest has workspaces
    or a pnpm workspace file exists; enumeration is delegated. *)
Definition turbo_detect (h : Host) (rootPath : string) : Exc bool :=
  Ok (existsSync h (path_resolve h rootPath "turbo.json")
      && (NpmDetector_detect h rootPath || PnpmDetector_detect h rootPath)).

Definition turbo_getPackages (h : Host) (rootPath : string)
  : Exc (list PackageInfo) :=
  Ok (if PnpmDetector_detect h rootPath then PnpmDetector_getPackages h rootPath
      else NpmDetector_getPackages h rootPath).

Definition detectIn (h : Host) (customDetectors : list MonorepoDetector)
  : Exc MonorepoInfo :=
  detectMonorepo h (turbo_detect h) (turbo_getPackages h) "/repo"
    customDetectors.

(** A caller-supplied detector that carries the tag ["none"]. *)
Definition noneDetector : MonorepoDetector :=
  mkDetector none (fun _ => Ok true) (fun _ => Ok []).

(** A caller-supplied detector that recognises every root. *)
Definition customDetector : MonorepoDetector :=
  mkDetector lerna (fun _ => Ok true)
    (fun _ => Ok [mkPackageInfo "only" "/repo/only" None]).

(** A caller-supplied detector that throws. *)
Definition brokenDetector : MonorepoDetector :=
  mkDetector nx (fun _ => Throw "boom") (fun _ => Throw "boom").

End Sample.

(* ===================================================================== *)
(** * Further vocabulary *)
(* ===================================================================== *)

From Stdlib Require Import DecimalZ DecimalPos FinFun.

(** The five fields of a record as the report shows them when nothing has
    to be escaped. *)
Definition rawFields (e : TypeScriptError) : list string :=
  [ JS.Number_toString (id e); packageName e; fileName e;
    JS.Number_toString (errorCode e); description e ].

(** The three text fields of a record hold no tab, newline or carriage
    return. *)
Definition cleanRecord (e : TypeScriptError) : Prop :=
  cleanField (packageName e) /\ cleanField (fileName e) /\
  cleanField (description e).

(** Reading a report back: lines, then fields. *)
Definition parseTsv (content : string) : list (list string) :=
  map (JS.split JS.TAB) (JS.split JS.LF content).

(** The calls of the progress listener among the events. *)
Definition isProgress (e : Event) : bool :=
  match e with
  | Progress _ _ _ => true
  | _ => false
  end.

(** The progress calls a full pass over [pkgs] makes, the first unit being
    number [i + 1] of [total]. *)
Fixpoint progressCalls (total i : nat) (pkgs : list PackageInfo) : list Event :=
  match pkgs with
  | [] => []
  | pkg :: rest =>
      Progress (pkg_name pkg) (i + 1) total :: progressCalls total (S i) rest
  end.

(** The four category names a record can carry. *)
Definition categoryNames : list string :=
  ["warning"; "error"; "suggestion"; "message"].

(** The text of a diagnostic's message, or of the head of its chain. *)
Definition topLevelText (m : ts.MessageText) : string :=
  match m with
  | ts.Text s => s
  | ts.Chain (ts.MessageChain s _) => s
  end.

(** The work list of [collect]: the packages, or the scan root under the
    label ["root"] when there is none. *)
Definition units (rootPath : string) (monorepoInfo : MonorepoInfo)
  : list PackageInfo :=
  match packages monorepoInfo with
  | [] => [mkPackageInfo "root" rootPath None]
  | pkgs => pkgs
  end.

(** Every record of [chunk] carries the name of [pkg]. *)
Definition labelledBy (pkg : PackageInfo) (chunk : list TypeScriptError) : Prop :=
  Forall (fun e => packageName e = pkg_name pkg) chunk.

(** Two computations that, run on collectors with the same fields, have
    the same outcome and leave the same fields. *)
Definition Agree {A : Type} (m1 m2 : M A) : Prop :=
  forall st1 st2, sameFields st1 st2 ->
    fst (m1 st1) = fst (m2 st2) /\ sameFields (snd (m1 st1)) (snd (m2 st2)).

(** The name a record shows for each category of the engine. *)
Definition categoryName (c : ts.DiagnosticCategory) : string :=
  match c with
  | ts.Warning => "warning"
  | ts.Error => "error"
  | ts.Suggestion => "suggestion"
  | ts.Message => "message"
  end.

(** The patterns a [workspaces] field stands for: the array itself, or the
    [packages] array of the object. *)
Definition workspacePatterns (workspaces : Workspaces) : list string :=
  match workspaces with
  | WorkspacesArray patterns => patterns
  | WorkspacesObject (Some patterns) => patterns
  | WorkspacesObject None => []
  end.

(** The globs for the manifests of the directories [patterns] match. *)
Definition manifestGlobs (host : Host) (patterns : list string) : list string :=
  map (fun pattern => path_join host pattern "package.json") patterns.

(** The package [p] was read from a manifest below [root] that one of the
    [globs] matched: the manifest gives its (non-empty) name and its
    version, the manifest's directory its path. *)
Definition readFromGlob (host : Host) (root : string) (globs : list string)
    (p : PackageInfo) : Prop :=
  exists glob file packageJson,
    In glob globs /\
    In file (fg host glob root) /\
    readPackageJson host (path_resolve host root file) = Some packageJson /\
    pj_name packageJson = Some (pkg_name p) /\
    pkg_name p <> EmptyString /\
    pkg_path p = path_dirname host (path_resolve host root file) /\
    pkg_version p = pj_version packageJson.

(** The package [p] stands for the entry [(projectName, projectPath)] of an
    Nx project map.  It lies at the project's path.  If a manifest is found
    there and can be read, [p] has the manifest's version and the manifest's
    name, and the entry's key for a name only when the manifest has none;
    without a readable manifest [p] is named by the key and has no
    version. *)
Definition ofProject (host : Host) (root : string)
    (entry : string * string) (p : PackageInfo) : Prop :=
  let fullPath := path_resolve host root (snd entry) in
  let manifest := path_join host fullPath "package.json" in
  pkg_path p = fullPath /\
  ((exists packageJson,
       existsSync host manifest = true /\
       readPackageJson host manifest = Some packageJson /\
       pkg_version p = pj_version packageJson /\
       ((pj_name packageJson = Some (pkg_name p) /\
         pkg_name p <> EmptyString) \/
        ((pj_name packageJson = None \/
          pj_name packageJson = Some EmptyString) /\
         pkg_name p = fst entry))) \/
   ((existsSync host manifest = false \/
     readPackageJson host manifest = None) /\
    pkg_name p = fst entry /\ pkg_version p = None)).

(** The type of a detection result, when there is one. *)
Definition type_of_result (r : Exc MonorepoInfo) : option MonorepoType :=
  match r with
  | Ok info => Some (type info)
  | Throw _ => None
  end.

(** Every call of the listener returns (or there is no listener). *)
Definition listenerReturns (onProgress : option ProgressCallback) : Prop :=
  forall listener,
    onProgress = Some listener ->
    forall label current total, listener label current total = Ok tt.

(* ===================================================================== *)
(** * More sample roots *)
(* ===================================================================== *)

Module Sample2.

Import Sample.

(** A root with npm workspaces [packages/*] and, optionally, a
    [yarn.lock].  The glob matches three manifests: [a] and [b] are named,
    the third has no name; a fourth directory holds a manifest that cannot
    be parsed. *)
Definition workspaceHost (yarnLock : bool) : Host :=
  mkHost
    (fun p => yarnLock && String.eqb p "/repo/yarn.lock")
    (fun p =>
       lookup p
         [ ("/repo/package.json",
            mkPackageJson (Some "mono") None
              (Some (WorkspacesArray ["packages/*"])));
           ("/repo/packages/a/package.json",
            mkPackageJson (Some "a") (Some "1.0.0") None);
           ("/repo/packages/b/package.json",
            mkPackageJson (Some "b") None None);
           ("/repo/packages/c/package.json",
            mkPackageJson None (Some "0.0.1") None) ])
    (fun _ => None)
    (fun _ => None)
    (fun _ => Throw "ENOENT")
    (fun pattern cwd =>
       if String.eqb pattern "packages/*/package.json" && String.eqb cwd "/repo"
       then [ "packages/a/package.json"; "packages/b/package.json";
              "packages/c/package.json"; "packages/d/package.json" ]
       else [])
    joinPath joinPath dirname relative "/repo".

(** A root with [nx.json] that declares two projects; only the first has
    a manifest. *)
Definition nxHost : Host :=
  mkHost
    (fun p => inList p ["/repo/nx.json"; "/repo/apps/web/package.json"])
    (fun p =>
       lookup p
         [ ("/repo/apps/web/package.json",
            mkPackageJson (Some "@acme/web") (Some "2.0.0") None) ])
    (fun _ => None)
    (fun p =>
       if String.eqb p "/repo/nx.json"
       then Some (mkNxJson (Some [("web", "apps/web"); ("util", "libs/util")]))
       else None)
    (fun _ => Throw "ENOENT")
    (fun _ _ => [])
    joinPath joinPath dirname relative "/repo".

(** A root whose manifest has no name. *)
Definition unnamedHost : Host :=
  hostOf [] [ ("/repo/package.json", mkPackageJson None (Some "0.0.1") None) ].

(** No turbo configuration anywhere. *)
Definition noTurbo : string -> Exc bool := fun _ => Ok false.
Definition noTurboPackages : string -> Exc (list PackageInfo) := fun _ => Ok [].

(** A detector that accepts the root and fails to enumerate. *)
Definition halfBrokenDetector : MonorepoDetector :=
  mkDetector lerna (fun _ => Ok true) (fun _ => Throw "EACCES").

(** A record whose description needs escaping, and one that needs none. *)
Definition dirtyRecord : TypeScriptError :=
  mkTypeScriptError 1 "a" "src/x.ts" 2322
    ("Type 'A'" ++ String JS.LF "is not" ++ String JS.TAB "assignable."
       ++ String JS.CR EmptyString)
    (Some 3%Z) (Some 6%Z) (Some "error").

Definition plainRecord : TypeScriptError :=
  mkTypeScriptError 2 "b" "src/y.ts" 2304 "Cannot find name 'Express'."
    None None (Some "error").

(** A root whose [pnpm-workspace.yaml] exists and cannot be read. *)
Definition brokenPnpmHost : Host := hostOf ["/repo/pnpm-workspace.yaml"] [].

(** A listener that throws at every call. *)
Definition failingListener : ProgressCallback :=
  fun _ _ _ => Throw "listener failed".

End Sample2.

(* ===================================================================== *)
(** * Properties of the report writer *)
(* ===================================================================== *)

Section StringFacts.

Lemma occurs_app (c : ascii) (a b : string) :
  JS.occurs c (a ++ b) = JS.occurs c a || JS.occurs c b.
Proof.
  induction a as [|x a IH]; simpl; [reflexivity|].
  now rewrite IH, orb_assoc.
Qed.

Lemma occurs_replaceAll_same (c : ascii) (by_ s : string) :
  JS.occurs c by_ = false -> JS.occurs c (JS.replaceAll c by_ s) = false.
Proof.
  intros Hby. induction s as [|a s IH]; simpl; [reflexivity|].
  destruct (Ascii.eqb a c) eqn:E.
  - now rewrite occurs_app, Hby, IH.
  - simpl. now rewrite E, IH.
Qed.

Lemma occurs_replaceAll_other (d c : ascii) (by_ s : string) :
  JS.occurs d by_ = false -> JS.occurs d s = false ->
  JS.occurs d (JS.replaceAll c by_ s) = false.
Proof.
  intros Hby. induction s as [|a s IH]; simpl; [reflexivity|].
  intros H. apply orb_false_iff in H as [Ha Hs].
  destruct (Ascii.eqb a c).
  - now rewrite occurs_app, Hby, IH.
  - simpl. now rewrite Ha, IH.
Qed.

Lemma occurs_join (c : ascii) (sep : string) (xs : list string) :
  JS.occurs c sep = false ->
  Forall (fun x => JS.occurs c x = false) xs ->
  JS.occurs c (JS.join sep xs) = false.
Proof.
  intros Hsep. induction 1 as [|x xs Hx Hxs IH]; [reflexivity|].
  destruct xs as [|y ys]; [exact Hx|].
  change (JS.occurs c (x ++ sep ++ JS.join sep (y :: ys)) = false).
  now rewrite !occurs_app, Hx, Hsep, IH.
Qed.

Lemma split_no_sep (sep : ascii) (s : string) :
  JS.occurs sep s = false -> JS.split sep s = [s].
Proof.
  induction s as [|a s IH]; simpl; [reflexivity|].
  intros H. apply orb_false_iff in H as [Ha Hs].
  now rewrite Ha, (IH Hs).
Qed.

Lemma split_app_sep (sep : ascii) (x rest : string) :
  JS.occurs sep x = false ->
  JS.split sep (x ++ String sep rest) = x :: JS.split sep rest.
Proof.
  induction x as [|a x IH]; simpl.
  - intros _. now rewrite Ascii.eqb_refl.
  - intros H. apply orb_false_iff in H as [Ha Hx].
    now rewrite Ha, (IH Hx).
Qed.

(** Splitting undoes joining when no element holds the separator. *)
Lemma split_join (sep : ascii) (xs : list string) :
  xs <> [] ->
  Forall (fun x => JS.occurs sep x = false) xs ->
  JS.split sep (JS.join (String sep EmptyString) xs) = xs.
Proof.
  intros Hne H. induction H as [|x xs Hx Hxs IH]; [congruence|].
  destruct xs as [|y ys].
  - simpl. now apply split_no_sep.
  - change (JS.split sep (x ++ String sep (JS.join (String sep EmptyString) (y :: ys)))
            = x :: y :: ys).
    rewrite (split_app_sep _ _ _ Hx). f_equal. apply IH. discriminate.
Qed.

End StringFacts.

Lemma string_of_uint_digits (d : Decimal.uint) :
  allChars isDigit (NilEmpty.string_of_uint d) = true.
Proof. induction d; simpl; auto. Qed.

Lemma Number_toString_chars (z : Z) :
  allChars (fun c => isDigit c || Ascii.eqb c "-"%char) (JS.Number_toString z)
  = true.
Proof.
  assert (W : forall s, allChars isDigit s = true ->
              allChars (fun c => isDigit c || Ascii.eqb c "-"%char) s = true).
  { induction s as [|a s IH]; simpl; [reflexivity|].
    intros H. apply andb_true_iff in H as [Ha Hs].
    now rewrite Ha, (IH Hs). }
  assert (U : forall d, allChars (fun c => isDigit c || Ascii.eqb c "-"%char)
                          (NilZero.string_of_uint d) = true).
  { intros d. unfold NilZero.string_of_uint.
    destruct d; try reflexivity; apply W; apply string_of_uint_digits. }
  unfold JS.Number_toString.
  destruct (Z.to_int z) as [d|d]; simpl.
  - apply U.
  - apply U.
Qed.

Lemma allChars_occurs (p : ascii -> bool) (c : ascii) (s : string) :
  p c = false -> allChars p s = true -> JS.occurs c s = false.
Proof.
  intros Hc. induction s as [|a s IH]; simpl; [reflexivity|].
  intros H. apply andb_true_iff in H as [Ha Hs].
  rewrite (IH Hs), orb_false_r.
  destruct (Ascii.eqb a c) eqn:E; [|reflexivity].
  apply Ascii.eqb_eq in E. subst a. congruence.
Qed.

Lemma Number_toString_clean (z : Z) : cleanField (JS.Number_toString z).
Proof.
  repeat split;
    (eapply allChars_occurs; [|apply Number_toString_chars]); reflexivity.
Qed.

Lemma escapeField_clean (field : string) :
  cleanField (TsvGenerator.escapeField field).
Proof.
  unfold TsvGenerator.escapeField. repeat split.
  - apply occurs_replaceAll_other; [reflexivity|].
    apply occurs_replaceAll_other; [reflexivity|].
    now apply occurs_replaceAll_same.
  - apply occurs_replaceAll_other; [reflexivity|].
    now apply occurs_replaceAll_same.
  - now apply occurs_replaceAll_same.
Qed.

Lemma row_clean (error : TypeScriptError) :
  Forall cleanField (TsvGenerator.row error).
Proof.
  unfold TsvGenerator.row.
  repeat constructor;
    try apply Number_toString_clean; try apply escapeField_clean;
    try (apply Number_toString_clean || apply escapeField_clean).
Qed.

Lemma headers_clean : Forall cleanField TsvGenerator.headers.
Proof. repeat constructor. Qed.

(** A line built from five clean fields splits back into them and holds no
    newline. *)
Lemma line_of_clean_fields (fields : list string) :
  List.length fields = 5%nat ->
  Forall cleanField fields ->
  JS.split JS.TAB (JS.join TsvGenerator.tab fields) = fields /\
  JS.occurs JS.LF (JS.join TsvGenerator.tab fields) = false.
Proof.
  intros Hlen Hclean. split.
  - apply split_join.
    + intros ->. discriminate.
    + eapply Forall_impl; [|exact Hclean]. intros f Hf. apply Hf.
  - apply occurs_join; [reflexivity|].
    eapply Forall_impl; [|exact Hclean]. intros f Hf. apply Hf.
Qed.

(** C7.  The text [generate] writes for [N] records, split at newlines,
    gives [N + 1] lines (the header and one per record), each of which
    splits at tabs into exactly five fields, none of which holds a raw tab,
    newline or carriage return, whatever the records' strings held. *)
Theorem tsv_round_trip (errors : list TypeScriptError) :
  let lines := JS.split JS.LF (TsvGenerator.generate errors) in
  List.length lines = S (List.length errors) /\
  Forall
    (fun l =>
       List.length (JS.split JS.TAB l) = 5%nat /\
       Forall cleanField (JS.split JS.TAB l))
    lines.
Proof.
  assert (Hrows : Forall
            (fun l => JS.occurs JS.LF l = false /\
                      List.length (JS.split JS.TAB l) = 5%nat /\
                      Forall cleanField (JS.split JS.TAB l))
            (TsvGenerator.rows errors)).
  { unfold TsvGenerator.rows. constructor.
    - destruct (line_of_clean_fields TsvGenerator.headers eq_refl headers_clean)
        as [Hs Hn].
      rewrite Hs. repeat split; try exact Hn. apply headers_clean.
    - apply Forall_forall. intros l Hl.
      apply in_map_iff in Hl as [e [<- _]].
      destruct (line_of_clean_fields (TsvGenerator.row e) eq_refl (row_clean e))
        as [Hs Hn].
      rewrite Hs. repeat split; try exact Hn. apply row_clean. }
  cbv zeta. unfold TsvGenerator.generate, TsvGenerator.newline.
  rewrite split_join.
  - split.
    + unfold TsvGenerator.rows. simpl. now rewrite length_map.
    + eapply Forall_impl; [|exact Hrows]. intros l [_ H]. exact H.
  - unfold TsvGenerator.rows. discriminate.
  - eapply Forall_impl; [|exact Hrows]. intros l [H _]. exact H.
Qed.

(* ===================================================================== *)
(** * Properties of the collection pipeline *)
(* ===================================================================== *)

Local Open Scope collector_scope.

Lemma numberedFrom_app (c : Z) (a b : list TypeScriptError) :
  numberedFrom c (a ++ b) <->
  numberedFrom c a /\ numberedFrom (c + Z.of_nat (List.length a)) b.
Proof.
  revert c. induction a as [|e a IH]; intros c; simpl.
  - rewrite Z.add_0_r. tauto.
  - rewrite IH.
    replace (c + 1 + Z.of_nat (List.length a))%Z
      with (c + Z.pos (Pos.of_succ_nat (List.length a)))%Z by lia.
    tauto.
Qed.

Lemma numberedFrom_ids (c : Z) (es : list TypeScriptError) :
  numberedFrom c es ->
  map id es = map (fun k => (c + Z.of_nat k)%Z) (seq 1 (List.length es)).
Proof.
  revert c. induction es as [|e es IH]; intros c; simpl; [reflexivity|].
  intros [He Hes]. f_equal; [lia|].
  rewrite (IH _ Hes), <- (seq_shift (List.length es) 1), map_map.
  apply map_ext. intros k. lia.
Qed.

(** ** Stability of the building blocks *)

Section StableFacts.

Lemma Stable_ret {A : Type} (a : A) : Stable (ret a).
Proof. intros st1 st2 H. simpl. auto. Qed.

Lemma Stable_throw {A : Type} (msg : string) : Stable (@throw A msg).
Proof. intros st1 st2 H. simpl. auto. Qed.

Lemma Stable_call {A : Type} (r : Exc A) : Stable (call r).
Proof. intros st1 st2 H. simpl. auto. Qed.

Lemma Stable_emit (e : Event) : Stable (emit e).
Proof. intros st1 st2 [H1 H2]. simpl. split; [reflexivity|]. split; assumption. Qed.

Lemma Stable_isInterrupted : Stable isInterrupted.
Proof.
  intros st1 st2 [H1 H2]. simpl. split; [now rewrite H2|]. split; assumption.
Qed.

Lemma Stable_nextErrorId : Stable nextErrorId.
Proof.
  intros st1 st2 [H1 H2]. simpl. split; [now rewrite H1|].
  split; simpl; [now rewrite H1 | assumption].
Qed.

Lemma Stable_when (b : bool) (m : M unit) : Stable m -> Stable (when b m).
Proof. destruct b; simpl; [auto | intros _; apply Stable_ret]. Qed.

Lemma Stable_bind {A B : Type} (m : M A) (k : A -> M B) :
  Stable m -> (forall a, Stable (k a)) -> Stable (bind m k).
Proof.
  intros Hm Hk st1 st2 H. unfold bind.
  destruct (Hm st1 st2 H) as [Hr Hs].
  destruct (m st1) as [r1 s1], (m st2) as [r2 s2]. simpl in Hr, Hs. subst r2.
  destruct r1 as [a|e]; [apply Hk; assumption|]. simpl. auto.
Qed.

Lemma Stable_try_catch {A : Type} (body : M A) (handler : string -> M A) :
  Stable body -> (forall e, Stable (handler e)) -> Stable (try_catch body handler).
Proof.
  intros Hm Hk st1 st2 H. unfold try_catch.
  destruct (Hm st1 st2 H) as [Hr Hs].
  destruct (body st1) as [r1 s1], (body st2) as [r2 s2]. simpl in Hr, Hs. subst r2.
  destruct r1 as [a|e]; [simpl; auto|]. apply Hk; assumption.
Qed.

End StableFacts.

Create HintDb stable.

#[local] Hint Resolve Stable_ret Stable_throw Stable_call Stable_emit
  Stable_isInterrupted Stable_nextErrorId Stable_when : stable.

Ltac stable :=
  repeat first
    [ apply Stable_bind; [|intros ?]
    | apply Stable_try_catch; [|intros ?]
    | solve [auto with stable]
    | match goal with
      | |- Stable (if ?b then _ else _) => destruct b
      | |- Stable (match ?x with _ => _ end) => destruct x
      end ].

Section CollectorFacts.

Context {Config CompilerOptions : Type}.
Variable host : Host.
Variable compiler : ts.Compiler Config CompilerOptions.

Lemma Stable_formatDiagnostic (packageName : string) (d : ts.Diagnostic) :
  Stable (formatDiagnostic host packageName d).
Proof.
  unfold formatDiagnostic.
  destruct (ts.file d) as [f|], (ts.start d) as [s|];
    try destruct (ts.getLineAndCharacterOfPosition f s); stable.
Qed.

Lemma Stable_formatDiagnostics (ds : list ts.Diagnostic) (packageName : string) :
  Stable (formatDiagnostics host ds packageName).
Proof.
  induction ds as [|d ds IH]; simpl; [stable|].
  apply Stable_bind; [apply Stable_formatDiagnostic|]. intros e.
  apply Stable_bind; [exact IH|]. intros es. stable.
Qed.

Lemma Stable_collectErrorsFromProject (tsconfigPath packageName : string) :
  Stable (collectErrorsFromProject host compiler tsconfigPath packageName).
Proof.
  unfold collectErrorsFromProject.
  apply Stable_bind; [stable|]. intros cf.
  destruct (ts.error cf); [stable|].
  apply Stable_bind; [stable|]. intros parsed.
  destruct (0 <? List.length (ts.errors parsed))%nat;
    [apply Stable_formatDiagnostics|].
  repeat (apply Stable_bind; [stable|]; intros ?).
  apply Stable_formatDiagnostics.
Qed.

Lemma Stable_collectFromPath (packagePath packageName : string) :
  Stable (collectFromPath host compiler packagePath packageName).
Proof.
  unfold collectFromPath.
  apply Stable_bind; [stable|]. intros [|]; [stable|].
  destruct (findTsConfig host packagePath) as [p|]; [|stable].
  apply Stable_try_catch.
  - apply Stable_bind; [stable|]. intros [|]; [stable|].
    apply Stable_collectErrorsFromProject.
  - intros e. stable.
Qed.

(** ** What one unit does to the collector *)

Lemma formatDiagnostic_run (label : string) (d : ts.Diagnostic)
    (st : Collector) :
  exists e,
    formatDiagnostic host label d st
    = (Ok e, mkCollector (errorIdCounter st + 1) (interrupted st) (events st)) /\
    id e = (errorIdCounter st + 1)%Z /\
    packageName e = label /\
    positionConverted d e.
Proof.
  unfold formatDiagnostic, positionConverted.
  destruct (ts.file d) as [f|], (ts.start d) as [s|];
    try destruct (ts.getLineAndCharacterOfPosition f s) as [l c];
    eexists; (split; [reflexivity|]); simpl; auto.
Qed.

Lemma formatDiagnostics_run (ds : list ts.Diagnostic) (label : string)
    (st : Collector) :
  exists es,
    formatDiagnostics host ds label st
    = (Ok es, mkCollector (errorIdCounter st + Z.of_nat (List.length ds))
                (interrupted st) (events st)) /\
    List.length es = List.length ds /\
    numberedFrom (errorIdCounter st) es /\
    Forall2 positionConverted ds es /\
    Forall (fun e => packageName e = label) es.
Proof.
  revert st. induction ds as [|d ds IH]; intros st.
  - exists []. simpl. rewrite Z.add_0_r. destruct st. repeat split; constructor.
  - destruct (formatDiagnostic_run label d st) as (e & He & Hid & Hn & Hp).
    destruct (IH (mkCollector (errorIdCounter st + 1) (interrupted st) (events st)))
      as (es & Hes & Hlen & Hnum & Hpos & Hnames).
    exists (e :: es). cbn [formatDiagnostics]. unfold bind at 1. rewrite He.
    unfold bind at 1. rewrite Hes. simpl.
    unfold ret. split; [do 2 f_equal; lia|].
    split; [congruence|]. split; [auto|]. split; constructor; auto.
Qed.

Lemma collectErrorsFromProject_run (tsconfigPath packageName : string)
    (st : Collector) :
  (exists msg,
      collectErrorsFromProject host compiler tsconfigPath packageName st
      = (Throw msg, st)) \/
  (exists es,
      collectErrorsFromProject host compiler tsconfigPath packageName st
      = (Ok es, mkCollector (errorIdCounter st + Z.of_nat (List.length es))
                  (interrupted st) (events st)) /\
      numberedFrom (errorIdCounter st) es).
Proof.
  assert (F : forall ds,
             exists es,
               formatDiagnostics host ds packageName st
               = (Ok es, mkCollector (errorIdCounter st + Z.of_nat (List.length es))
                           (interrupted st) (events st)) /\
               numberedFrom (errorIdCounter st) es).
  { intros ds. destruct (formatDiagnostics_run ds packageName st)
      as (es & Hes & Hlen & Hnum & _).
    exists es. rewrite Hlen. auto. }
  unfold collectErrorsFromProject, bind, call, throw.
  destruct (ts.readConfigFile compiler tsconfigPath) as [cf|m]; [|eauto].
  destruct (ts.error cf); [eauto|].
  destruct (ts.parseJsonConfigFileContent compiler _ _) as [parsed|m]; [|eauto].
  destruct (0 <? List.length (ts.errors parsed))%nat; [right; apply F|].
  destruct (ts.createProgram compiler _ _) as [program|m]; [|eauto].
  destruct (ts.getSemanticDiagnostics program) as [d1|m]; [|eauto].
  destruct (ts.getSyntacticDiagnostics program) as [d2|m]; [|eauto].
  destruct (ts.getDeclarationDiagnostics program) as [d3|m]; [|eauto].
  destruct (ts.getConfigFileParsingDiagnostics program) as [d4|m]; [|eauto].
  right; apply F.
Qed.

Lemma collectFromPath_interrupted (packagePath packageName : string)
    (st : Collector) :
  interrupted st = true ->
  collectFromPath host compiler packagePath packageName st = (Ok [], st).
Proof.
  intros H. unfold collectFromPath, bind, isInterrupted. now rewrite H.
Qed.

Lemma collectFromPath_run (packagePath packageName : string) (st : Collector) :
  exists es st',
    collectFromPath host compiler packagePath packageName st = (Ok es, st') /\
    interrupted st' = interrupted st /\
    errorIdCounter st' = (errorIdCounter st + Z.of_nat (List.length es))%Z /\
    numberedFrom (errorIdCounter st) es.
Proof.
  destruct (interrupted st) eqn:Hi.
  - exists [], st. rewrite (collectFromPath_interrupted _ _ _ Hi).
    simpl. repeat split; auto. lia.
  - unfold collectFromPath, bind, isInterrupted, try_catch. rewrite Hi.
    destruct (findTsConfig host packagePath) as [p|].
    + rewrite Hi. destruct (collectErrorsFromProject_run p packageName st)
        as [[msg H] | (es & H & Hnum)]; rewrite H.
      * rewrite Hi. simpl.
        eexists [], _. split; [reflexivity|]. simpl. repeat split; auto. lia.
      * eexists es, _. split; [reflexivity|]. simpl. auto.
    + rewrite Hi. simpl.
      eexists [], _. split; [reflexivity|]. simpl. repeat split; auto. lia.
Qed.

(** An uninterrupted unit yields [unitRecords], whatever was emitted
    before. *)
Lemma collectFromPath_unitRecords (pkg : PackageInfo) (st : Collector) :
  interrupted st = false ->
  exists st',
    collectFromPath host compiler (pkg_path pkg) (pkg_name pkg) st
    = (Ok (unitRecords host compiler pkg (errorIdCounter st)), st') /\
    interrupted st' = false /\
    errorIdCounter st'
    = (errorIdCounter st
       + Z.of_nat (List.length (unitRecords host compiler pkg (errorIdCounter st))))%Z.
Proof.
  intros Hi.
  destruct (collectFromPath_run (pkg_path pkg) (pkg_name pkg) st)
    as (es & st' & Hrun & Hi' & Hc & _).
  assert (Hs : sameFields st (mkCollector (errorIdCounter st) false []))
    by (split; simpl; auto).
  destruct (Stable_collectFromPath (pkg_path pkg) (pkg_name pkg) _ _ Hs) as [Hr _].
  unfold unitRecords. rewrite <- Hr, Hrun. simpl.
  exists st'. repeat split; congruence.
Qed.

(** C8.  Normalizing raw diagnostics never fails, and every record shows
    the position of its diagnostic: when the diagnostic carries a source
    file and a start offset, [line] and [column] are present and are the
    checker's 0-based line and character plus one; otherwise both are
    absent and [fileName] is ["unknown"]. *)
Theorem position_is_one_based (diagnostics : list ts.Diagnostic)
    (packageName : string) (st : Collector) :
  exists es st',
    formatDiagnostics host diagnostics packageName st = (Ok es, st') /\
    Forall2 positionConverted diagnostics es.
Proof.
  destruct (formatDiagnostics_run diagnostics packageName st)
    as (es & Hes & _ & _ & Hpos & _).
  eauto.
Qed.

(** ** The loop over the units *)

Variable sigint : nat -> bool.

(** Whether collecting from a project throws is up to the engine alone. *)
Lemma collectErrorsFromProject_outcome (tsconfigPath label : string) :
  (exists msg, forall st,
      collectErrorsFromProject host compiler tsconfigPath label st
      = (Throw msg, st)) \/
  (exists ds, forall st,
      collectErrorsFromProject host compiler tsconfigPath label st
      = formatDiagnostics host ds label st).
Proof.
  unfold collectErrorsFromProject, bind, call, throw.
  destruct (ts.readConfigFile compiler tsconfigPath) as [cf|m]; [|eauto].
  destruct (ts.error cf); [eauto|].
  destruct (ts.parseJsonConfigFileContent compiler _ _) as [parsed|m]; [|eauto].
  destruct (0 <? List.length (ts.errors parsed))%nat; [eauto|].
  destruct (ts.createProgram compiler _ _) as [program|m]; [|eauto].
  destruct (ts.getSemanticDiagnostics program) as [d1|m]; [|eauto].
  destruct (ts.getSyntacticDiagnostics program) as [d2|m]; [|eauto].
  destruct (ts.getDeclarationDiagnostics program) as [d3|m]; [|eauto].
  destruct (ts.getConfigFileParsingDiagnostics program) as [d4|m]; eauto.
Qed.

Lemma unitThrows_unitRecords (pkg : PackageInfo) (msg : string) (c : Z) :
  unitThrows host compiler pkg msg -> unitRecords host compiler pkg c = [].
Proof.
  intros (p & Hp & Hthrow).
  unfold unitRecords, collectFromPath, bind, isInterrupted, try_catch.
  simpl. rewrite Hp. simpl.
  destruct (collectErrorsFromProject_outcome p (pkg_name pkg))
    as [[m H] | [ds H]].
  - rewrite H. reflexivity.
  - rewrite H in Hthrow.
    destruct (formatDiagnostics_run ds (pkg_name pkg) (mkCollector 0 false []))
      as (es & Hes & _).
    rewrite Hes in Hthrow. discriminate.
Qed.

Lemma recordsFrom_app (c : Z) (l1 l2 : list PackageInfo) :
  recordsFrom host compiler c (l1 ++ l2)
  = recordsFrom host compiler c l1
    ++ recordsFrom host compiler
         (c + Z.of_nat (List.length (recordsFrom host compiler c l1))) l2.
Proof.
  revert c. induction l1 as [|pkg l1 IH]; intros c; simpl.
  - now rewrite Z.add_0_r.
  - rewrite IH, <- app_assoc. do 2 f_equal.
    rewrite length_app. f_equal. lia.
Qed.

(** One iteration of the loop, entered with the flag clear. *)
Lemma collectLoop_cons (onProgress : bool) (total i : nat) (pkg : PackageInfo)
    (rest : list PackageInfo) (acc : list TypeScriptError) (st : Collector) :
  interrupted st = false ->
  collectLoop host compiler sigint
      (returningListener onProgress) total i (pkg :: rest) acc st
  = match collectFromPath host compiler (pkg_path pkg) (pkg_name pkg)
            (mkCollector (errorIdCounter st) (sigint i)
               (events st
                ++ if onProgress
                   then [Progress (pkg_name pkg) (i + 1) total] else []))
    with
    | (Ok errors, st') =>
        collectLoop host compiler sigint
            (returningListener onProgress) total (S i) rest
          (acc ++ errors) st'
    | (Throw e, st') => (Throw e, st')
    end.
Proof.
  intros Hi. destruct st as [c b ev]. simpl in Hi. subst b.
  cbn [collectLoop]. unfold bind at 1. unfold isInterrupted. cbn [interrupted].
  unfold bind at 1.
  destruct onProgress; simpl;
    unfold bind at 1; unfold awaitSetImmediate; simpl;
    rewrite ?app_nil_r; destruct (sigint i); reflexivity.
Qed.

Lemma collectLoop_stopped (onProgress : option ProgressCallback) (total i : nat)
    (pkgs : list PackageInfo) (acc : list TypeScriptError) (st : Collector) :
  interrupted st = true ->
  collectLoop host compiler sigint onProgress total i pkgs acc st
  = (match pkgs with
     | [] => Ok acc
     | _ :: _ => Throw "Interrupted by user"
     end, st).
Proof.
  intros Hi. destruct pkgs as [|pkg rest]; [reflexivity|].
  cbn [collectLoop]. unfold bind, isInterrupted. now rewrite Hi.
Qed.

(** While no signal arrives the loop gathers the units' records in
    order. *)
Lemma collectLoop_quiet (onProgress : bool) (total : nat)
    (pkgs : list PackageInfo) :
  forall (i : nat) (acc : list TypeScriptError) (st : Collector),
    interrupted st = false ->
    (forall j, (i <= j < i + List.length pkgs)%nat -> sigint j = false) ->
    fst (collectLoop host compiler sigint
        (returningListener onProgress) total i pkgs acc st)
    = Ok (acc ++ recordsFrom host compiler (errorIdCounter st) pkgs).
Proof.
  induction pkgs as [|pkg rest IH]; intros i acc st Hi Hsig.
  - simpl. now rewrite app_nil_r.
  - rewrite (collectLoop_cons _ _ _ _ _ _ _ Hi).
    rewrite (Hsig i) by (simpl; lia).
    match goal with
    | |- context [collectFromPath _ _ _ _ ?s] =>
        destruct (collectFromPath_unitRecords pkg s eq_refl)
          as (st' & Hrun & Hi' & Hc)
    end.
    rewrite Hrun. simpl errorIdCounter in *.
    rewrite (IH (S i) _ st' Hi') by (intros j Hj; apply Hsig; simpl; lia).
    rewrite Hc. simpl. now rewrite app_assoc.
Qed.

(** The first signal arrives while iteration [i + k] yields. *)
Lemma collectLoop_first_signal (onProgress : bool) (total : nat) (k : nat) :
  forall (pkgs : list PackageInfo) (i : nat) (acc : list TypeScriptError)
         (st : Collector),
    interrupted st = false ->
    (forall j, (i <= j < i + k)%nat -> sigint j = false) ->
    sigint (i + k) = true ->
    (k < List.length pkgs)%nat ->
    exists st',
      collectLoop host compiler sigint
          (returningListener onProgress) total i pkgs acc st
      = (if (S k <? List.length pkgs)%nat then Throw "Interrupted by user"
         else Ok (acc ++ recordsFrom host compiler (errorIdCounter st)
                           (firstn k pkgs)),
         st') /\
      errorIdCounter st'
      = (errorIdCounter st
         + Z.of_nat (List.length
                       (recordsFrom host compiler (errorIdCounter st)
                          (firstn k pkgs))))%Z.
Proof.
  induction k as [|k IH]; intros pkgs i acc st Hi Hquiet Hsig Hlen;
    (destruct pkgs as [|pkg rest]; [simpl in Hlen; lia|]);
    rewrite (collectLoop_cons _ _ _ _ _ _ _ Hi).
  - rewrite Nat.add_0_r in Hsig. rewrite Hsig.
    rewrite collectFromPath_interrupted by reflexivity.
    rewrite collectLoop_stopped by reflexivity.
    eexists. split.
    + destruct rest; reflexivity.
    + simpl. lia.
  - rewrite (Hquiet i) by lia.
    match goal with
    | |- context [collectFromPath _ _ _ _ ?s] =>
        destruct (collectFromPath_unitRecords pkg s eq_refl)
          as (st1 & Hrun & Hi1 & Hc)
    end.
    rewrite Hrun. simpl errorIdCounter in *.
    destruct (IH rest (S i) (acc ++ unitRecords host compiler pkg (errorIdCounter st))
                st1 Hi1) as (st' & Hloop & Hc').
    + intros j Hj. apply Hquiet. lia.
    + rewrite <- Hsig. f_equal. lia.
    + simpl in Hlen. lia.
    + exists st'. rewrite Hloop, Hc', Hc.
      simpl List.length. simpl firstn. simpl recordsFrom.
      change (S (S k) <? S (List.length rest))%nat
        with (S k <? List.length rest)%nat.
      split; [now rewrite app_assoc|].
      rewrite length_app. lia.
Qed.

(** The invariant behind the numbering: the counter stands at the number
    of records gathered so far. *)
Lemma collectLoop_numbered (onProgress : bool) (total : nat)
    (pkgs : list PackageInfo) :
  forall (i : nat) (acc : list TypeScriptError) (st : Collector)
         (res : list TypeScriptError) (st' : Collector),
    errorIdCounter st = Z.of_nat (List.length acc) ->
    numberedFrom 0 acc ->
    collectLoop host compiler sigint
        (returningListener onProgress) total i pkgs acc st
    = (Ok res, st') ->
    numberedFrom 0 res.
Proof.
  induction pkgs as [|pkg rest IH]; intros i acc st res st' Hc Hacc Hrun.
  - simpl in Hrun. injection Hrun as <- _. exact Hacc.
  - destruct (interrupted st) eqn:Hi.
    + rewrite (collectLoop_stopped _ _ _ _ _ _ Hi) in Hrun. discriminate.
    + rewrite (collectLoop_cons _ _ _ _ _ _ _ Hi) in Hrun.
      match type of Hrun with
      | context [collectFromPath _ _ ?p ?n ?s] =>
          destruct (collectFromPath_run p n s) as (es & st2 & H2 & _ & Hc2 & Hnum)
      end.
      rewrite H2 in Hrun. simpl errorIdCounter in *.
      apply (IH _ _ _ _ _) with (3 := Hrun).
      * rewrite Hc2, length_app. lia.
      * apply numberedFrom_app. split; [exact Hacc|].
        rewrite Z.add_0_l, <- Hc. exact Hnum.
Qed.

(** ** Whole runs *)

Lemma collect_packages (rootPath : string) (monorepoInfo : MonorepoInfo)
    (onProgress : option ProgressCallback) (st0 : Collector) :
  packages monorepoInfo <> [] ->
  collect host compiler sigint rootPath monorepoInfo onProgress st0
  = collectLoop host compiler sigint onProgress
      (List.length (packages monorepoInfo)) 0 (packages monorepoInfo) []
      (mkCollector 0 false (events st0)).
Proof.
  intros Hne. unfold collect, bind at 1, reset.
  destruct (packages monorepoInfo); [congruence|reflexivity].
Qed.

Lemma collect_root (rootPath : string) (monorepoInfo : MonorepoInfo)
    (onProgress : bool) (st0 : Collector) :
  packages monorepoInfo = [] ->
  collect host compiler sigint rootPath monorepoInfo
      (returningListener onProgress) st0
  = collectFromPath host compiler rootPath "root"
      (mkCollector 0 false
         (events st0 ++ if onProgress then [Progress "root" 1 1] else [])).
Proof.
  intros Hnil. unfold collect, bind at 1, reset. rewrite Hnil. simpl.
  unfold bind at 1.
  assert (E : reportProgress (returningListener onProgress) "root" 1 1
                (mkCollector 0 false (events st0))
              = (Ok tt, mkCollector 0 false
                          (events st0
                           ++ if onProgress then [Progress "root" 1 1] else []))).
  { destruct onProgress; simpl; [reflexivity|]. now rewrite app_nil_r. }
  rewrite E. unfold bind.
  match goal with
  | |- context [collectFromPath _ _ ?p ?n ?s] =>
      destruct (collectFromPath_run p n s) as (es & st2 & H2 & _)
  end.
  now rewrite H2.
Qed.

(** ** Listeners that may throw *)

(** A call of the listener leaves the fields alone; it returns, or throws
    what the listener threw. *)
Lemma reportProgress_run (onProgress : option ProgressCallback)
    (label : string) (cur total : nat) (st : Collector) :
  exists r evs,
    reportProgress onProgress label cur total st
    = (r, mkCollector (errorIdCounter st) (interrupted st) (events st ++ evs)) /\
    (r = Ok tt \/
     exists listener msg,
       onProgress = Some listener /\
       listener label cur total = Throw msg /\ r = Throw msg).
Proof.
  destruct onProgress as [listener|]; simpl.
  - unfold bind, emit, call. simpl.
    exists (listener label cur total), [Progress label cur total].
    split; [reflexivity|].
    destruct (listener label cur total) as [[]|msg] eqn:E; [auto|].
    right. exists listener, msg. auto.
  - exists (Ok tt), []. rewrite app_nil_r. destruct st. auto.
Qed.

(** One iteration of the loop with any listener, entered with the flag
    clear: the listener throws, or the iteration goes on to the unit. *)
Lemma collectLoop_step (onProgress : option ProgressCallback) (total i : nat)
    (pkg : PackageInfo) (rest : list PackageInfo)
    (acc : list TypeScriptError) (st : Collector) :
  interrupted st = false ->
  exists evs,
    (exists listener msg,
        onProgress = Some listener /\
        listener (pkg_name pkg) (i + 1)%nat total = Throw msg /\
        collectLoop host compiler sigint onProgress total i (pkg :: rest) acc st
        = (Throw msg,
           mkCollector (errorIdCounter st) false (events st ++ evs))) \/
    collectLoop host compiler sigint onProgress total i (pkg :: rest) acc st
    = match collectFromPath host compiler (pkg_path pkg) (pkg_name pkg)
              (mkCollector (errorIdCounter st) (sigint i) (events st ++ evs))
      with
      | (Ok errors, st') =>
          collectLoop host compiler sigint onProgress total (S i) rest
            (acc ++ errors) st'
      | (Throw e, st') => (Throw e, st')
      end.
Proof.
  intros Hi.
  destruct (reportProgress_run onProgress (pkg_name pkg) (i + 1) total st)
    as (r & evs & Hrun & Hr).
  exists evs. destruct st as [c b ev]. simpl in Hi. subst b. simpl in Hrun.
  assert (E :
    collectLoop host compiler sigint onProgress total i (pkg :: rest) acc
      (mkCollector c false ev)
    = match r with
      | Ok _ =>
          match collectFromPath host compiler (pkg_path pkg) (pkg_name pkg)
                  (mkCollector c (sigint i) (ev ++ evs))
          with
          | (Ok errors, st') =>
              collectLoop host compiler sigint onProgress total (S i) rest
                (acc ++ errors) st'
          | (Throw e, st') => (Throw e, st')
          end
      | Throw e => (Throw e, mkCollector c false (ev ++ evs))
      end).
  { cbn [collectLoop]. unfold bind at 1, isInterrupted. cbn [interrupted].
    unfold bind at 1. rewrite Hrun. destruct r; [|reflexivity].
    unfold bind at 1, awaitSetImmediate. simpl.
    destruct (sigint i); reflexivity. }
  cbn [errorIdCounter events]. rewrite E.
  destruct Hr as [-> | (listener & msg & Hl & Hthrow & ->)].
  - right. reflexivity.
  - left. exists listener, msg. auto.
Qed.

(** A run that returns took no error from its listener: it returns what the
    run with a listener that always returns does, or with no listener. *)
Lemma collectLoop_returned (onProgress : option ProgressCallback)
    (supplied : bool) (total : nat) (pkgs : list PackageInfo) :
  forall (i : nat) (acc : list TypeScriptError) (st1 st2 : Collector)
         (res : list TypeScriptError) (st1' : Collector),
    sameFields st1 st2 ->
    collectLoop host compiler sigint onProgress total i pkgs acc st1
    = (Ok res, st1') ->
    fst (collectLoop host compiler sigint (returningListener supplied) total i
           pkgs acc st2) = Ok res.
Proof.
  induction pkgs as [|pkg rest IH]; intros i acc st1 st2 res st1' Hsame Hrun.
  - simpl in Hrun. injection Hrun as <- _. reflexivity.
  - destruct Hsame as [Hc Hi].
    destruct (interrupted st1) eqn:Hi1.
    + rewrite (collectLoop_stopped _ _ _ _ _ _ Hi1) in Hrun. discriminate.
    + destruct (collectLoop_step onProgress total i pkg rest acc st1 Hi1)
        as (evs & [(l & msg & _ & _ & Hthrow) | Hstep]);
        [rewrite Hthrow in Hrun; discriminate|].
      rewrite Hstep in Hrun.
      rewrite (collectLoop_cons _ _ _ _ _ _ _ (eq_sym Hi)).
      match type of Hrun with
      | context [collectFromPath _ _ ?p ?n ?s] =>
          match goal with
          | |- context [collectFromPath _ _ p n ?t] =>
              assert (Hst : sameFields s t) by (split; simpl; congruence);
              destruct (Stable_collectFromPath p n s t Hst) as [Hr Hs];
              destruct (collectFromPath host compiler p n s) as [[es|e] s'];
              destruct (collectFromPath host compiler p n t) as [r' t'];
              simpl in Hr, Hs; subst r'; [|discriminate]
          end
      end.
      exact (IH _ _ _ _ _ _ Hs Hrun).
Qed.

Lemma collect_returned (rootPath : string) (monorepoInfo : MonorepoInfo)
    (onProgress : option ProgressCallback) (supplied : bool) (st0 : Collector)
    (records : list TypeScriptError) (st' : Collector) :
  collect host compiler sigint rootPath monorepoInfo onProgress st0
  = (Ok records, st') ->
  fst (collect host compiler sigint rootPath monorepoInfo
         (returningListener supplied) st0) = Ok records.
Proof.
  intros Hrun.
  destruct (packages monorepoInfo) as [|pkg rest] eqn:Hpk.
  - rewrite (collect_root _ _ _ _ Hpk).
    unfold collect, bind at 1, reset in Hrun. rewrite Hpk in Hrun.
    simpl in Hrun. unfold bind at 1 in Hrun.
    destruct (reportProgress_run onProgress "root" 1 1
                (mkCollector 0 false (events st0)))
      as (r & evs & Hrep & [-> | (l & msg & _ & _ & ->)]);
      rewrite Hrep in Hrun; [|discriminate].
    unfold bind in Hrun.
    match type of Hrun with
    | context [collectFromPath _ _ ?p ?n ?s] =>
        match goal with
        | |- context [collectFromPath _ _ p n ?t] =>
            assert (Hst : sameFields s t) by (split; reflexivity);
            destruct (Stable_collectFromPath p n s t Hst) as [Hr _];
            destruct (collectFromPath host compiler p n s) as [[es|e] s'];
            [|discriminate]
        end
    end.
    rewrite <- Hr. unfold ret in Hrun. simpl in Hrun.
    injection Hrun as <- _. reflexivity.
  - rewrite collect_packages in Hrun by (rewrite Hpk; discriminate).
    rewrite collect_packages by (rewrite Hpk; discriminate).
    eapply collectLoop_returned with (2 := Hrun). split; reflexivity.
Qed.

(** C1.  Whatever state earlier runs left in the collector, whenever
    signals arrive, whatever listener is supplied and however many packages
    contribute: the identifiers of the list [collect] returns are
    [1, 2, ..., N] in this order, [N] being the number of records. *)
Theorem ids_are_one_to_N (rootPath : string) (monorepoInfo : MonorepoInfo)
    (onProgress : option ProgressCallback) (st0 : Collector)
    (records : list TypeScriptError) (st' : Collector) :
  collect host compiler sigint rootPath monorepoInfo onProgress st0
  = (Ok records, st') ->
  map id records = map Z.of_nat (seq 1 (List.length records)).
Proof.
  intros Hany.
  pose proof (collect_returned _ _ _ true _ _ _ Hany) as Hret.
  destruct (collect host compiler sigint rootPath monorepoInfo
              (returningListener true) st0) as [r st2] eqn:Hrun.
  simpl in Hret. subst r.
  assert (Hnum : numberedFrom 0 records).
  { destruct (packages monorepoInfo) as [|pkg rest] eqn:Hpk.
    - rewrite (collect_root _ _ _ _ Hpk) in Hrun.
      match type of Hrun with
      | context [collectFromPath _ _ ?p ?n ?s] =>
          destruct (collectFromPath_run p n s) as (es & st3 & H2 & _ & _ & Hnum)
      end.
      rewrite H2 in Hrun. injection Hrun as <- _. exact Hnum.
    - rewrite collect_packages in Hrun by (rewrite Hpk; discriminate).
      eapply collectLoop_numbered with (3 := Hrun); simpl; auto. }
  rewrite (numberedFrom_ids _ _ Hnum). apply map_ext. intros k. lia.
Qed.

(** C2, as the code has it.  When the first signal arrives while the loop
    yields before unit [k] (counting from 0), no unit from [k] on is
    type-checked: the counter ends at the number of records of the units
    before [k].  If a further unit remains in the work list, the check at
    the top of the next iteration throws ["Interrupted by user"] and
    [collect] returns nothing; if unit [k] was the last one, [collect]
    returns normally the records of the units before [k]. *)
Theorem interruption_stops_the_run (rootPath : string)
    (monorepoInfo : MonorepoInfo) (onProgress : bool) (st0 : Collector)
    (k : nat) :
  (forall j, (j < k)%nat -> sigint j = false) ->
  sigint k = true ->
  (k < List.length (packages monorepoInfo))%nat ->
  let before := recordsFrom host compiler 0 (firstn k (packages monorepoInfo)) in
  exists st',
    collect host compiler sigint rootPath monorepoInfo
        (returningListener onProgress) st0
    = (if (S k <? List.length (packages monorepoInfo))%nat
       then Throw "Interrupted by user"
       else Ok before,
       st') /\
    errorIdCounter st' = Z.of_nat (List.length before).
Proof.
  intros Hquiet Hsig Hlen before.
  rewrite collect_packages by (intros E; rewrite E in Hlen; simpl in Hlen; lia).
  destruct (collectLoop_first_signal onProgress
              (List.length (packages monorepoInfo)) k (packages monorepoInfo)
              0 [] (mkCollector 0 false (events st0)) eq_refl)
    as (st' & Hloop & Hc); auto.
  - intros j Hj. apply Hquiet. lia.
  - exists st'. split; [exact Hloop|]. rewrite Hc. reflexivity.
Qed.

(** A run that no signal reaches returns the records of all its units. *)
Lemma collect_quiet (rootPath : string) (monorepoInfo : MonorepoInfo)
    (onProgress : bool) (st0 : Collector) :
  (forall i, sigint i = false) ->
  packages monorepoInfo <> [] ->
  fst (collect host compiler sigint rootPath monorepoInfo
      (returningListener onProgress) st0)
  = Ok (recordsFrom host compiler 0 (packages monorepoInfo)).
Proof.
  intros Hquiet Hne. rewrite collect_packages by exact Hne.
  rewrite collectLoop_quiet; auto.
Qed.

(** C6.  In a run that is not interrupted, a unit for which reading or
    parsing the configuration, or the type check itself, throws is caught
    at the unit: it yields no record whatever the counter, [collect] still
    returns normally, and its result is the records of the units before
    followed by the records of the units after, numbered as if the failing
    unit were not there. *)
Theorem throwing_unit_is_contained (rootPath : string)
    (monorepoInfo : MonorepoInfo) (onProgress : bool) (st0 : Collector)
    (pre : list PackageInfo) (pkg : PackageInfo) (post : list PackageInfo)
    (msg : string) :
  (forall i, sigint i = false) ->
  packages monorepoInfo = pre ++ pkg :: post ->
  unitThrows host compiler pkg msg ->
  (forall c, unitRecords host compiler pkg c = []) /\
  fst (collect host compiler sigint rootPath monorepoInfo
      (returningListener onProgress) st0)
  = Ok (recordsFrom host compiler 0 pre
        ++ recordsFrom host compiler
             (Z.of_nat (List.length (recordsFrom host compiler 0 pre))) post).
Proof.
  intros Hquiet Hpk Hthrow.
  split; [intros c; now apply (unitThrows_unitRecords pkg msg)|].
  rewrite collect_quiet by (auto; rewrite Hpk; now destruct pre).
  rewrite Hpk, recordsFrom_app. simpl.
  rewrite (unitThrows_unitRecords pkg msg _ Hthrow). simpl.
  now rewrite Z.add_0_r.
Qed.

(** What a unit yields when its configuration reads without error and
    parses with errors. *)
Lemma unitRecords_config_errors (pkg : PackageInfo) (c : Z)
    (tsconfigPath : string) (configFile : ts.ConfigFile Config)
    (parsedConfig : ts.ParsedCommandLine CompilerOptions) :
  findTsConfig host (pkg_path pkg) = Some tsconfigPath ->
  ts.readConfigFile compiler tsconfigPath = Ok configFile ->
  ts.error configFile = None ->
  ts.parseJsonConfigFileContent compiler (ts.config configFile)
    (path_dirname host tsconfigPath) = Ok parsedConfig ->
  ts.errors parsedConfig <> [] ->
  Ok (unitRecords host compiler pkg c)
  = fst (formatDiagnostics host (ts.errors parsedConfig) (pkg_name pkg)
           (mkCollector c false [])).
Proof.
  intros Hfind Hread Herr Hparse Hne.
  destruct (formatDiagnostics_run (ts.errors parsedConfig) (pkg_name pkg)
              (mkCollector c false [])) as (es & Hes & _).
  unfold unitRecords, collectFromPath, bind at 1, isInterrupted. simpl.
  rewrite Hfind. unfold try_catch, bind at 1. simpl.
  unfold collectErrorsFromProject, bind at 1, call. rewrite Hread, Herr.
  unfold bind at 1. rewrite Hparse.
  destruct (ts.errors parsedConfig) as [|d ds] eqn:E; [congruence|].
  change (0 <? List.length (d :: ds))%nat with true. cbv iota.
  rewrite Hes. reflexivity.
Qed.

(** What a unit yields when reading its configuration reports an error:
    collecting from it throws. *)
Lemma unitThrows_read_error (pkg : PackageInfo) (tsconfigPath : string)
    (configFile : ts.ConfigFile Config) (error : ts.Diagnostic) :
  findTsConfig host (pkg_path pkg) = Some tsconfigPath ->
  ts.readConfigFile compiler tsconfigPath = Ok configFile ->
  ts.error configFile = Some error ->
  unitThrows host compiler pkg
    ("Failed to read tsconfig.json: " ++ templateText (ts.messageText error)).
Proof.
  intros Hfind Hread Herr. exists tsconfigPath. split; [exact Hfind|].
  unfold collectErrorsFromProject, bind, call. now rewrite Hread, Herr.
Qed.

(** C4, as the code has it.  Take, in a run that is not interrupted, a
    unit whose configuration file is present.  If the file is read without
    error but its content parses with errors, the unit contributes exactly
    the records that [formatDiagnostics] makes of those errors: one per
    error, numbered on from the records of the units before, and followed
    by the records of the units after.  If reading the file reports an
    error (it cannot be read, or is not well-formed JSON), the unit is a
    collection failure: it contributes no record, and the run returns the
    records of the units before followed by those of the units after. *)
Theorem config_parse_errors_become_records (rootPath : string)
    (monorepoInfo : MonorepoInfo) (onProgress : bool) (st0 : Collector)
    (pre : list PackageInfo) (pkg : PackageInfo) (post : list PackageInfo)
    (tsconfigPath : string) (configFile : ts.ConfigFile Config) :
  (forall i, sigint i = false) ->
  packages monorepoInfo = pre ++ pkg :: post ->
  findTsConfig host (pkg_path pkg) = Some tsconfigPath ->
  ts.readConfigFile compiler tsconfigPath = Ok configFile ->
  let before := recordsFrom host compiler 0 pre in
  (forall parsedConfig : ts.ParsedCommandLine CompilerOptions,
      ts.error configFile = None ->
      ts.parseJsonConfigFileContent compiler (ts.config configFile)
        (path_dirname host tsconfigPath) = Ok parsedConfig ->
      ts.errors parsedConfig <> [] ->
      exists unit_,
        fst (formatDiagnostics host (ts.errors parsedConfig) (pkg_name pkg)
               (mkCollector (Z.of_nat (List.length before)) false []))
        = Ok unit_ /\
        List.length unit_ = List.length (ts.errors parsedConfig) /\
        unit_ <> [] /\
        fst (collect host compiler sigint rootPath monorepoInfo
               (returningListener onProgress) st0)
        = Ok (before ++ unit_
              ++ recordsFrom host compiler
                   (Z.of_nat (List.length before + List.length unit_)) post)) /\
  (forall error : ts.Diagnostic,
      ts.error configFile = Some error ->
      (forall c, unitRecords host compiler pkg c = []) /\
      fst (collect host compiler sigint rootPath monorepoInfo
             (returningListener onProgress) st0)
      = Ok (before
            ++ recordsFrom host compiler (Z.of_nat (List.length before)) post)).
Proof.
  intros Hquiet Hpk Hfind Hread before. split.
  - intros parsedConfig Herr Hparse Hne.
    pose proof (unitRecords_config_errors pkg (Z.of_nat (List.length before))
                  _ _ _ Hfind Hread Herr Hparse Hne) as Hunit.
    destruct (formatDiagnostics_run (ts.errors parsedConfig) (pkg_name pkg)
                (mkCollector (Z.of_nat (List.length before)) false []))
      as (es & Hes & Hlen & _).
    rewrite Hes in Hunit. simpl in Hunit. injection Hunit as Hunit.
    exists es. rewrite Hes. simpl. split; [reflexivity|]. split; [exact Hlen|].
    split.
    + intros ->. destruct (ts.errors parsedConfig); [congruence|discriminate].
    + rewrite collect_quiet by (auto; rewrite Hpk; now destruct pre).
      rewrite Hpk, recordsFrom_app. fold before. simpl.
      rewrite Hunit. do 4 f_equal. lia.
  - intros error Herr.
    pose proof (unitThrows_read_error pkg _ _ _ Hfind Hread Herr) as Hthrow.
    split; [intros c; now apply (unitThrows_unitRecords pkg _ c Hthrow)|].
    rewrite collect_quiet by (auto; rewrite Hpk; now destruct pre).
    rewrite Hpk, recordsFrom_app. fold before. simpl.
    rewrite (unitThrows_unitRecords pkg _ _ Hthrow). simpl.
    now rewrite Z.add_0_r.
Qed.

End CollectorFacts.

(* ===================================================================== *)
(** * Properties of detection *)
(* ===================================================================== *)

Section DetectorFacts.

Variable host : Host.
Variable turbo_detect : string -> Exc bool.
Variable turbo_getPackages : string -> Exc (list PackageInfo).

Local Abbreviation defaults :=
  (DEFAULT_DETECTORS host turbo_detect turbo_getPackages).

(** ** The loop over the detectors *)

Lemma tryDetectors_none (rootPath : string) (detectors : list MonorepoDetector) :
  noneDetects rootPath detectors ->
  tryDetectors rootPath detectors = Ok None.
Proof.
  induction 1 as [|d l Hd _ IH]; simpl; [reflexivity|]. now rewrite Hd.
Qed.

(** The first detector that answers [true] decides; what stands after it
    in the list plays no part. *)
Lemma tryDetectors_first (rootPath : string)
    (pre : list MonorepoDetector) (d : MonorepoDetector)
    (post : list MonorepoDetector) :
  noneDetects rootPath pre ->
  detect d rootPath = Ok true ->
  tryDetectors rootPath (pre ++ d :: post)
  = match getPackages d rootPath with
    | Ok pkgs => Ok (Some (mkMonorepoInfo true (name d) rootPath pkgs))
    | Throw e => Throw e
    end.
Proof.
  intros Hpre Hd. induction Hpre as [|x l Hx _ IH]; simpl.
  - rewrite Hd. now destruct (getPackages d rootPath).
  - now rewrite Hx.
Qed.

Lemma tryDetectors_some (rootPath : string) (detectors : list MonorepoDetector)
    (info : MonorepoInfo) :
  tryDetectors rootPath detectors = Ok (Some info) ->
  exists d, In d detectors /\ isMonorepo info = true /\ type info = name d.
Proof.
  induction detectors as [|d l IH]; simpl; [discriminate|].
  destruct (detect d rootPath) as [[|]|e]; [| |discriminate].
  - destruct (getPackages d rootPath) as [pkgs|e]; [|discriminate].
    intros H. injection H as <-. exists d. simpl. auto.
  - intros H. destruct (IH H) as (x & Hin & Hx). exists x. auto.
Qed.

Lemma defaults_names :
  map name defaults = [turbo; pnpm; yarn; npm; lerna; nx].
Proof. reflexivity. Qed.

Lemma detectMonorepo_first (rootPath : string)
    (customDetectors pre : list MonorepoDetector) (d : MonorepoDetector)
    (post : list MonorepoDetector) :
  customDetectors ++ defaults = pre ++ d :: post ->
  noneDetects rootPath pre ->
  detect d rootPath = Ok true ->
  detectMonorepo host turbo_detect turbo_getPackages rootPath customDetectors
  = match getPackages d rootPath with
    | Ok pkgs => Ok (mkMonorepoInfo true (name d) rootPath pkgs)
    | Throw e => Throw e
    end.
Proof.
  intros Hsplit Hpre Hd. unfold detectMonorepo.
  rewrite Hsplit, (tryDetectors_first _ _ _ _ Hpre Hd).
  now destruct (getPackages d rootPath).
Qed.

(** C3, as the code has it.  [detect] of the npm detector answers [true]
    exactly when the root manifest can be read and parsed and its
    [workspaces] field is an array or an object that has a [packages]
    array, empty or not.  In particular it answers [true] for an object
    with an empty [packages] array, and [false] when the manifest is absent
    or unparseable. *)
Theorem npm_detect_characterised (rootPath : string) :
  (detect (NpmDetector host) rootPath = Ok true <->
   exists packageJson,
     readPackageJson host (path_resolve host rootPath "package.json")
     = Some packageJson /\
     workspacesArrayOrPackages packageJson) /\
  (forall packageJson,
      readPackageJson host (path_resolve host rootPath "package.json")
      = Some packageJson ->
      pj_workspaces packageJson = Some (WorkspacesObject (Some [])) ->
      detect (NpmDetector host) rootPath = Ok true) /\
  (readPackageJson host (path_resolve host rootPath "package.json") = None ->
   detect (NpmDetector host) rootPath = Ok false).
Proof.
  simpl. unfold NpmDetector_detect, resolvePath, workspacesArrayOrPackages.
  repeat split.
  - intros H.
    destruct (readPackageJson host _) as [pj|]; [|discriminate].
    exists pj. split; [reflexivity|].
    destruct (pj_workspaces pj) as [[l|[l|]]|]; try discriminate; eauto.
  - intros (pj & -> & [[l ->] | [l ->]]); reflexivity.
  - intros pj -> ->. reflexivity.
  - intros ->. reflexivity.
Qed.

(** C5.  The built-in detectors stand in the order turbo, pnpm, yarn, npm,
    lerna, nx, after the caller's detectors.  The first detector of that
    list whose [detect] answers [true] fixes the type and the packages of
    the result, whatever the detectors after it would do.  In particular a
    root that satisfies the turbo detector is reported as turbo even when
    the npm detector would accept it too. *)
Theorem first_detector_wins (rootPath : string)
    (customDetectors : list MonorepoDetector) :
  map name (customDetectors ++ defaults)
  = map name customDetectors ++ [turbo; pnpm; yarn; npm; lerna; nx] /\
  (forall pre d post,
      customDetectors ++ defaults = pre ++ d :: post ->
      noneDetects rootPath pre ->
      detect d rootPath = Ok true ->
      detectMonorepo host turbo_detect turbo_getPackages rootPath
        customDetectors
      = match getPackages d rootPath with
        | Ok pkgs => Ok (mkMonorepoInfo true (name d) rootPath pkgs)
        | Throw e => Throw e
        end) /\
  (noneDetects rootPath customDetectors ->
   turbo_detect rootPath = Ok true ->
   detect (NpmDetector host) rootPath = Ok true ->
   detectMonorepo host turbo_detect turbo_getPackages rootPath customDetectors
   = match turbo_getPackages rootPath with
     | Ok pkgs => Ok (mkMonorepoInfo true turbo rootPath pkgs)
     | Throw e => Throw e
     end).
Proof.
  split; [|split].
  - now rewrite map_app.
  - intros pre d post. apply detectMonorepo_first.
  - intros Hcustom Hturbo _.
    apply (detectMonorepo_first rootPath customDetectors customDetectors
             (TurboDetector turbo_detect turbo_getPackages)
             [PnpmDetector host; YarnDetector host; NpmDetector host;
              LernaDetector host; NxDetector host]);
      [reflexivity | exact Hcustom | exact Hturbo].
Qed.

(** C9.  When no detector recognises the root: a readable root manifest
    with a (non-empty) name [n] gives a result that is not a monorepo, has
    type [none] and holds the single package of name [n] at the root, with
    the manifest's version if it has one; an absent or unreadable manifest
    gives the same with no package.  Neither case throws. *)
Theorem single_package_fallback (rootPath : string)
    (customDetectors : list MonorepoDetector) :
  noneDetects rootPath (customDetectors ++ defaults) ->
  (forall packageJson n,
      readPackageJson host (path_resolve host rootPath "package.json")
      = Some packageJson ->
      pj_name packageJson = Some n ->
      n <> EmptyString ->
      detectMonorepo host turbo_detect turbo_getPackages rootPath
        customDetectors
      = Ok (mkMonorepoInfo false none rootPath
              [mkPackageInfo n rootPath (pj_version packageJson)])) /\
  (readPackageJson host (path_resolve host rootPath "package.json") = None ->
   detectMonorepo host turbo_detect turbo_getPackages rootPath customDetectors
   = Ok (mkMonorepoInfo false none rootPath [])).
Proof.
  intros Hnone. unfold detectMonorepo.
  rewrite (tryDetectors_none _ _ Hnone). split.
  - intros pj n -> Hn Hne. rewrite Hn.
    destruct n; [congruence|reflexivity].
  - intros ->. reflexivity.
Qed.

Lemma detectMonorepo_isMonorepo (rootPath : string)
    (customDetectors : list MonorepoDetector) (info : MonorepoInfo) :
  Forall (fun d => name d <> none) customDetectors ->
  detectMonorepo host turbo_detect turbo_getPackages rootPath customDetectors
  = Ok info ->
  isMonorepo info = negb (MonorepoType_eqb (type info) none).
Proof.
  intros Hnames. unfold detectMonorepo.
  destruct (tryDetectors rootPath (customDetectors ++ defaults))
    as [[found|]|e] eqn:Htry; [| |discriminate].
  - intros H. injection H as <-.
    destruct (tryDetectors_some _ _ _ Htry) as (d & Hin & Hmono & Htype).
    rewrite Hmono, Htype.
    assert (Hd : name d <> none).
    { apply in_app_or in Hin as [Hin|Hin].
      - rewrite Forall_forall in Hnames. now apply Hnames.
      - assert (Hn : In (name d) (map name defaults)) by now apply in_map.
        rewrite defaults_names in Hn. simpl in Hn.
        intros E. rewrite E in Hn. intuition discriminate. }
    destruct (name d); try reflexivity. congruence.
  - destruct (readPackageJson host _); intros H; injection H as <-; reflexivity.
Qed.

(** C10, as the code has it.  When no caller-supplied detector carries the
    tag [none], the result of [detectMonorepo] is a monorepo exactly when
    its type is not [none].  A detector that recognises the root and
    enumerates no package still gives a monorepo of its type, with an empty
    package list; [collect] then processes the scan root as the single unit
    labelled ["root"]. *)
Theorem isMonorepo_iff_detected (rootPath : string)
    (customDetectors : list MonorepoDetector) :
  Forall (fun d => name d <> none) customDetectors ->
  (forall info,
      detectMonorepo host turbo_detect turbo_getPackages rootPath
        customDetectors = Ok info ->
      isMonorepo info = negb (MonorepoType_eqb (type info) none)) /\
  (forall pre d post,
      customDetectors ++ defaults = pre ++ d :: post ->
      noneDetects rootPath pre ->
      detect d rootPath = Ok true ->
      getPackages d rootPath = Ok [] ->
      detectMonorepo host turbo_detect turbo_getPackages rootPath
        customDetectors
      = Ok (mkMonorepoInfo true (name d) rootPath []) /\
      forall (Config CompilerOptions : Type)
             (compiler : ts.Compiler Config CompilerOptions)
             (sigint : nat -> bool) (onProgress : bool) (st0 : Collector),
        fst (collect host compiler sigint rootPath
               (mkMonorepoInfo true (name d) rootPath [])
               (returningListener onProgress) st0)
        = Ok (unitRecords host compiler
                (mkPackageInfo "root" rootPath None) 0)).
Proof.
  intros Hnames. split.
  - intros info. now apply detectMonorepo_isMonorepo.
  - intros pre d post Hsplit Hpre Hd Hpk. split.
    + rewrite (detectMonorepo_first _ _ _ _ _ Hsplit Hpre Hd). now rewrite Hpk.
    + intros Config CompilerOptions compiler sigint onProgress st0.
      rewrite collect_root by reflexivity.
      match goal with
      | |- context [collectFromPath _ _ _ _ ?s] =>
          destruct (collectFromPath_unitRecords host compiler
                      (mkPackageInfo "root" rootPath None) s eq_refl)
            as (st' & Hrun & _)
      end.
      simpl in Hrun. now rewrite Hrun.
Qed.

End DetectorFacts.

(* ===================================================================== *)
(** * The properties on the sample repository *)
(* ===================================================================== *)

Module Runs.

Import Sample.

(** Six units, two of which fail and one of which has no configuration:
    five records, numbered 1 to 5. *)
Lemma ids_sample :
  exists records st',
    run noSignal [pkgA; pkgB; pkgC; pkgD; pkgE; pkgA] = (Ok records, st') /\
    map id records = map Z.of_nat (seq 1 (List.length records)).
Proof.
  eexists _, _. split.
  - vm_compute. reflexivity.
  - eapply (ids_are_one_to_N host compiler noSignal "/repo"
              (info [pkgA; pkgB; pkgC; pkgD; pkgE; pkgA])
              (returningListener true) used).
    vm_compute. reflexivity.
Defined.

(** A signal before the second of three units: the run throws, and the two
    records of the first unit are not returned. *)
Lemma interruption_throws_sample :
  fst (run (signalAt 1) [pkgA; pkgC; pkgA]) = Throw "Interrupted by user" /\
  ~ exists records, fst (run (signalAt 1) [pkgA; pkgC; pkgA]) = Ok records.
Proof.
  split; [reflexivity|]. intros [records H]. vm_compute in H. discriminate.
Qed.

(** A signal before the second, and before the last, of three units. *)
Lemma interruption_sample :
  (exists st',
      run (signalAt 1) [pkgA; pkgC; pkgA] = (Throw "Interrupted by user", st') /\
      errorIdCounter st' = 2%Z) /\
  (exists st',
      run (signalAt 2) [pkgA; pkgC; pkgA]
      = (Ok (recordsFrom host compiler 0 [pkgA; pkgC]), st') /\
      errorIdCounter st' = 3%Z).
Proof.
  split.
  - apply (interruption_stops_the_run host compiler (signalAt 1) "/repo"
             (info [pkgA; pkgC; pkgA]) true used 1).
    + intros j Hj. destruct j; [reflexivity|lia].
    + reflexivity.
    + simpl. lia.
  - apply (interruption_stops_the_run host compiler (signalAt 2) "/repo"
             (info [pkgA; pkgC; pkgA]) true used 2).
    + intros j Hj. destruct j as [|[|j]]; [reflexivity|reflexivity|lia].
    + reflexivity.
    + simpl. lia.
Defined.

(** The configuration of [b] is present and is not valid JSON; the unit
    contributes no record. *)
Lemma malformed_json_sample :
  findTsConfig host (pkg_path pkgB) = Some "/repo/packages/b/tsconfig.json" /\
  (exists configFile,
      ts.readConfigFile compiler "/repo/packages/b/tsconfig.json"
      = Ok configFile /\
      ts.error configFile = Some unexpectedToken) /\
  fst (run noSignal [pkgB]) = Ok [] /\
  exists records,
    fst (run noSignal [pkgA; pkgB]) = Ok records /\
    Forall (fun e => packageName e <> "b") records.
Proof.
  split; [reflexivity|]. split; [eexists; split; reflexivity|].
  split; [reflexivity|].
  eexists. split; [vm_compute; reflexivity|].
  repeat constructor; discriminate.
Qed.

(** The configuration of [c] parses with one error, which becomes the
    third record of the run; reading the configuration of [b] reports an
    error, and [b] contributes nothing between [a] and [c]. *)
Lemma config_errors_sample :
  (exists unit_,
      fst (formatDiagnostics host [unknownOption] "c" (mkCollector 2 false []))
      = Ok unit_ /\
      List.length unit_ = 1%nat /\
      unit_ <> [] /\
      fst (run noSignal [pkgA; pkgC; pkgD])
      = Ok (recordsFrom host compiler 0 [pkgA] ++ unit_
            ++ recordsFrom host compiler 3 [pkgD])) /\
  ((forall c, unitRecords host compiler pkgB c = []) /\
   fst (run noSignal [pkgA; pkgB; pkgC])
   = Ok (recordsFrom host compiler 0 [pkgA]
         ++ recordsFrom host compiler 2 [pkgC])).
Proof.
  split.
  - apply (proj1 (config_parse_errors_become_records host compiler noSignal
                    "/repo" (info [pkgA; pkgC; pkgD]) true used [pkgA] pkgC
                    [pkgD] "/repo/packages/c/tsconfig.json"
                    (ts.mkConfigFile "/repo/packages/c/tsconfig.json" None)
                    (fun _ => eq_refl) eq_refl eq_refl eq_refl)
             (ts.mkParsedCommandLine [unknownOption] [] tt)).
    + reflexivity.
    + reflexivity.
    + simpl. discriminate.
  - apply (proj2 (config_parse_errors_become_records host compiler noSignal
                    "/repo" (info [pkgA; pkgB; pkgC]) true used [pkgA] pkgB
                    [pkgC] "/repo/packages/b/tsconfig.json"
                    (ts.mkConfigFile "/repo/packages/b/tsconfig.json"
                       (Some unexpectedToken))
                    (fun _ => eq_refl) eq_refl eq_refl eq_refl)
             unexpectedToken).
    reflexivity.
Defined.

(** Unit [b] throws between [a] and [c]: the run returns the records of
    [a] and [c]. *)
Lemma throwing_unit_sample :
  (forall c, unitRecords host compiler pkgB c = []) /\
  fst (run noSignal [pkgA; pkgB; pkgC])
  = Ok (recordsFrom host compiler 0 [pkgA] ++ recordsFrom host compiler 2 [pkgC]).
Proof.
  apply (throwing_unit_is_contained host compiler noSignal "/repo"
           (info [pkgA; pkgB; pkgC]) true used [pkgA] pkgB [pkgC]
           "Failed to read tsconfig.json: '}' expected.").
  - intros i. reflexivity.
  - reflexivity.
  - exists "/repo/packages/b/tsconfig.json". split; reflexivity.
Defined.

(** ** Detection *)

(** [workspaces: { packages: [] }] is recognised by the npm detector. *)
Lemma empty_packages_detected :
  ~ (detect (NpmDetector emptyWorkspacesHost) "/repo" = Ok true <->
     exists packageJson,
       readPackageJson emptyWorkspacesHost
         (path_resolve emptyWorkspacesHost "/repo" "package.json")
       = Some packageJson /\
       workspacesArrayOrNonEmptyPackages packageJson).
Proof.
  intros [H _].
  destruct (H eq_refl) as (pj & Hread & [[l Hl] | (p & ps & Hl)]);
    vm_compute in Hread; injection Hread as <-; discriminate.
Qed.

Lemma npm_detect_sample :
  detect (NpmDetector emptyWorkspacesHost) "/repo" = Ok true.
Proof.
  exact (proj1 (proj2 (npm_detect_characterised emptyWorkspacesHost "/repo"))
           (mkPackageJson (Some "foo") None (Some (WorkspacesObject (Some []))))
           eq_refl eq_refl).
Defined.

(** A root with a turbo configuration and npm workspaces is a turbo
    monorepo; and a caller's detector that recognises the root wins before
    a broken detector behind it is ever asked. *)
Lemma turbo_before_npm_sample :
  (detect (NpmDetector turboHost) "/repo" = Ok true /\
   detectIn turboHost [] = Ok (mkMonorepoInfo true turbo "/repo" [])) /\
  detectIn turboHost [customDetector; brokenDetector]
  = Ok (mkMonorepoInfo true lerna "/repo"
          [mkPackageInfo "only" "/repo/only" None]).
Proof.
  pose proof (first_detector_wins turboHost (turbo_detect turboHost)
                (turbo_getPackages turboHost) "/repo") as H.
  split; [split; [reflexivity|]|].
  - apply (proj2 (proj2 (H []))).
    + constructor.
    + reflexivity.
    + reflexivity.
  - apply (proj1 (proj2 (H [customDetector; brokenDetector]))
             [] customDetector
             (brokenDetector
                :: DEFAULT_DETECTORS turboHost (turbo_detect turboHost)
                     (turbo_getPackages turboHost))).
    + reflexivity.
    + constructor.
    + reflexivity.
Defined.

(** A manifest named ["foo"] and no monorepo marker; and no manifest at
    all. *)
Lemma fallback_sample :
  detectIn host []
  = Ok (mkMonorepoInfo false none "/repo"
          [mkPackageInfo "foo" "/repo" None]) /\
  detectIn emptyHost [] = Ok (mkMonorepoInfo false none "/repo" []).
Proof.
  split.
  - apply (proj1 (single_package_fallback host (turbo_detect host)
                    (turbo_getPackages host) "/repo" []
                    ltac:(repeat constructor))
             (mkPackageJson (Some "foo") None None) "foo").
    + reflexivity.
    + reflexivity.
    + discriminate.
  - apply (proj2 (single_package_fallback emptyHost (turbo_detect emptyHost)
                    (turbo_getPackages emptyHost) "/repo" []
                    ltac:(repeat constructor))).
    reflexivity.
Defined.

(** A caller-supplied detector tagged ["none"] gives a monorepo of type
    ["none"]. *)
Lemma none_detector_sample :
  exists info,
    detectIn emptyHost [noneDetector] = Ok info /\
    isMonorepo info <> negb (MonorepoType_eqb (type info) none).
Proof.
  eexists. split; [reflexivity|]. simpl. discriminate.
Qed.

(** The npm detector recognises [emptyWorkspacesHost] and finds no
    package there. *)
Lemma empty_monorepo_sample :
  detectIn emptyWorkspacesHost [] = Ok (mkMonorepoInfo true npm "/repo" []) /\
  isMonorepo (mkMonorepoInfo true npm "/repo" [])
  = negb (MonorepoType_eqb npm none) /\
  fst (collect emptyWorkspacesHost compiler noSignal "/repo"
         (mkMonorepoInfo true npm "/repo" []) (returningListener true) used)
  = Ok (unitRecords emptyWorkspacesHost compiler
          (mkPackageInfo "root" "/repo" None) 0).
Proof.
  pose proof (isMonorepo_iff_detected emptyWorkspacesHost
                (turbo_detect emptyWorkspacesHost)
                (turbo_getPackages emptyWorkspacesHost) "/repo" []
                (Forall_nil _)) as [Hiff Hempty].
  destruct (Hempty
              [TurboDetector (turbo_detect emptyWorkspacesHost)
                 (turbo_getPackages emptyWorkspacesHost);
               PnpmDetector emptyWorkspacesHost;
               YarnDetector emptyWorkspacesHost]
              (NpmDetector emptyWorkspacesHost)
              [LernaDetector emptyWorkspacesHost; NxDetector emptyWorkspacesHost]
              eq_refl ltac:(repeat constructor) eq_refl eq_refl)
    as [Hdetect Hcollect].
  split; [exact Hdetect|]. split.
  - exact (Hiff _ Hdetect).
  - apply Hcollect.
Defined.

(** ** The report *)

Example tsv_sample :
  JS.split JS.LF
    (TsvGenerator.generate
       [mkTypeScriptError 1 "a" "x.ts" 2322
          (String JS.TAB "a" ++ String JS.LF "b" ++ String JS.CR "c")
          None None None])
  = [ JS.join TsvGenerator.tab TsvGenerator.headers;
      JS.join TsvGenerator.tab ["1"; "a"; "x.ts"; "2322"; " a bc"] ].
Proof. reflexivity. Qed.

End Runs.

(* ===================================================================== *)
(** * Further properties of the report writer *)
(* ===================================================================== *)

Lemma replaceAll_absent (c : ascii) (by_ s : string) :
  JS.occurs c s = false -> JS.replaceAll c by_ s = s.
Proof.
  induction s as [|a s IH]; simpl; [reflexivity|].
  intros H. apply orb_false_iff in H as [Ha Hs].
  now rewrite Ha, (IH Hs).
Qed.

(** A field without tab, newline and carriage return is written as it
    is. *)
Lemma escapeField_keeps_clean (field : string) :
  cleanField field -> TsvGenerator.escapeField field = field.
Proof.
  intros (Ht & Hn & Hr). unfold TsvGenerator.escapeField.
  now rewrite (replaceAll_absent _ _ _ Ht), (replaceAll_absent _ _ _ Hn),
    (replaceAll_absent _ _ _ Hr).
Qed.

(** Escaping twice is escaping once. *)
Lemma escapeField_idempotent (field : string) :
  TsvGenerator.escapeField (TsvGenerator.escapeField field)
  = TsvGenerator.escapeField field.
Proof. apply escapeField_keeps_clean, escapeField_clean. Qed.

Lemma string_length_app (a b : string) :
  String.length (a ++ b) = (String.length a + String.length b)%nat.
Proof. induction a as [|x a IH]; simpl; [reflexivity|now rewrite IH]. Qed.

Lemma replaceAll_length (c : ascii) (by_ s : string) :
  (String.length by_ <= 1)%nat ->
  (String.length (JS.replaceAll c by_ s) <= String.length s)%nat.
Proof.
  intros Hby. induction s as [|a s IH]; simpl; [lia|].
  destruct (Ascii.eqb a c); simpl; [|lia].
  rewrite string_length_app. lia.
Qed.

(** Escaping never makes a field longer. *)
Lemma escapeField_length (field : string) :
  (String.length (TsvGenerator.escapeField field) <= String.length field)%nat.
Proof.
  unfold TsvGenerator.escapeField.
  etransitivity; [apply replaceAll_length; simpl; lia|].
  etransitivity; [apply replaceAll_length; simpl; lia|].
  apply replaceAll_length; simpl; lia.
Qed.

(** Reading the report back gives the header and the rows. *)
Lemma parseTsv_generate (errors : list TypeScriptError) :
  parseTsv (TsvGenerator.generate errors)
  = TsvGenerator.headers :: map TsvGenerator.row errors.
Proof.
  unfold parseTsv, TsvGenerator.generate, TsvGenerator.newline.
  rewrite split_join.
  - unfold TsvGenerator.rows. cbn [map].
    rewrite (proj1 (line_of_clean_fields TsvGenerator.headers eq_refl
                      headers_clean)).
    f_equal. rewrite map_map. apply map_ext. intros e.
    apply (line_of_clean_fields (TsvGenerator.row e) eq_refl (row_clean e)).
  - unfold TsvGenerator.rows. discriminate.
  - unfold TsvGenerator.rows. constructor.
    + apply (line_of_clean_fields TsvGenerator.headers eq_refl headers_clean).
    + apply Forall_forall. intros l Hl.
      apply in_map_iff in Hl as [e [<- _]].
      apply (line_of_clean_fields (TsvGenerator.row e) eq_refl (row_clean e)).
Qed.

(** The numeral of an integer determines it. *)
Lemma Number_toString_inj (a b : Z) :
  JS.Number_toString a = JS.Number_toString b -> a = b.
Proof.
  unfold JS.Number_toString. intros H.
  assert (N : forall z, NilZero.int_of_string (NilZero.string_of_int (Z.to_int z))
                        = Some (Z.to_int z)).
  { intros z. apply NilZero.isi; destruct z; simpl; try discriminate;
      intros E; injection E as E;
      apply (Unsigned.to_uint_nonnil _ E). }
  apply DecimalZ.to_int_inj.
  pose proof (N a) as Ha. rewrite H, N in Ha. now injection Ha.
Qed.

(** X1.  [escapeField] leaves a field without tab, newline and carriage return
    as it is; applied twice it does what it does once; and it never makes
    a field longer. *)
Theorem escapeField_settles (field : string) :
  (cleanField field -> TsvGenerator.escapeField field = field) /\
  TsvGenerator.escapeField (TsvGenerator.escapeField field)
  = TsvGenerator.escapeField field /\
  (String.length (TsvGenerator.escapeField field) <= String.length field)%nat.
Proof.
  split; [apply escapeField_keeps_clean|].
  split; [apply escapeField_idempotent | apply escapeField_length].
Qed.

(** X2.  Reading a report back gives the header and then, for each record in
    order, its five fields as [row] escaped them; records whose text fields
    need no escaping are read back field for field. *)
Theorem report_round_trip (errors : list TypeScriptError) :
  parseTsv (TsvGenerator.generate errors)
  = TsvGenerator.headers :: map TsvGenerator.row errors /\
  (Forall cleanRecord errors ->
   parseTsv (TsvGenerator.generate errors)
   = TsvGenerator.headers :: map rawFields errors).
Proof.
  split; [apply parseTsv_generate|].
  intros Hclean. rewrite parseTsv_generate. f_equal.
  apply map_ext_in. intros e He.
  rewrite Forall_forall in Hclean. destruct (Hclean e He) as (Hp & Hf & Hd).
  unfold TsvGenerator.row, rawFields.
  now rewrite !escapeField_keeps_clean.
Qed.

(* ===================================================================== *)
(** * Further properties of the collection pipeline *)
(* ===================================================================== *)

Section AgreeFacts.

Lemma Stable_Agree {A : Type} (m : M A) : Stable m -> Agree m m.
Proof. intros H. exact H. Qed.

Lemma Agree_bind {A B : Type} (m1 m2 : M A) (k1 k2 : A -> M B) :
  Agree m1 m2 -> (forall a, Agree (k1 a) (k2 a)) ->
  Agree (bind m1 k1) (bind m2 k2).
Proof.
  intros Hm Hk st1 st2 H. unfold bind.
  destruct (Hm st1 st2 H) as [Hr Hs].
  destruct (m1 st1) as [r1 s1], (m2 st2) as [r2 s2]. simpl in Hr, Hs. subst r2.
  destruct r1 as [a|e]; [apply Hk; assumption|]. simpl. auto.
Qed.

(** A call of one listener: the outcome is the listener's. *)
Lemma Stable_reportProgress (onProgress : option ProgressCallback)
    (label : string) (cur total : nat) :
  Stable (reportProgress onProgress label cur total).
Proof.
  destruct onProgress as [listener|]; simpl; [|apply Stable_ret].
  apply Stable_bind; [apply Stable_emit|]. intros _. apply Stable_call.
Qed.

(** Calls of two listeners that return. *)
Lemma Agree_reportProgress (on1 on2 : option ProgressCallback)
    (label : string) (cur total : nat) :
  listenerReturns on1 -> listenerReturns on2 ->
  Agree (reportProgress on1 label cur total) (reportProgress on2 label cur total).
Proof.
  intros H1 H2 st1 st2 [Hc Hi].
  destruct on1 as [l1|], on2 as [l2|]; simpl; unfold bind, emit, call; simpl;
    rewrite ?(H1 l1 eq_refl), ?(H2 l2 eq_refl); simpl;
    repeat split; assumption.
Qed.

End AgreeFacts.

Section MoreCollectorFacts.

Context {Config CompilerOptions : Type}.
Variable host : Host.
Variable compiler : ts.Compiler Config CompilerOptions.
Variable sigint : nat -> bool.

Local Open Scope collector_scope.

Lemma Stable_awaitSetImmediate (i : nat) : Stable (awaitSetImmediate sigint i).
Proof.
  intros st1 st2 [Hc Hi]. unfold awaitSetImmediate. simpl.
  destruct (sigint i); simpl; repeat split; assumption.
Qed.

(** The loop run with two listeners whose calls agree. *)
Lemma Agree_collectLoop (on1 on2 : option ProgressCallback) (total : nat)
    (pkgs : list PackageInfo) :
  (forall label cur,
      Agree (reportProgress on1 label cur total)
            (reportProgress on2 label cur total)) ->
  forall (i : nat) (acc : list TypeScriptError),
    Agree (collectLoop host compiler sigint on1 total i pkgs acc)
          (collectLoop host compiler sigint on2 total i pkgs acc).
Proof.
  intros Hcalls.
  induction pkgs as [|pkg rest IH]; intros i acc; cbn [collectLoop].
  - apply Stable_Agree, Stable_ret.
  - apply Agree_bind; [apply Stable_Agree, Stable_isInterrupted|].
    intros [|]; [apply Stable_Agree, Stable_throw|].
    apply Agree_bind; [apply Hcalls|]. intros _.
    apply Agree_bind; [apply Stable_Agree, Stable_awaitSetImmediate|]. intros _.
    apply Agree_bind; [apply Stable_Agree, Stable_collectFromPath|]. intros es.
    apply IH.
Qed.

(** Two runs of [collect] on the same input agree when the calls of their
    listeners do, whatever the collectors they start from. *)
Lemma collect_agree (on1 on2 : option ProgressCallback) (rootPath : string)
    (monorepoInfo : MonorepoInfo) (st1 st2 : Collector) :
  (forall label cur total,
      Agree (reportProgress on1 label cur total)
            (reportProgress on2 label cur total)) ->
  fst (collect host compiler sigint rootPath monorepoInfo on1 st1)
  = fst (collect host compiler sigint rootPath monorepoInfo on2 st2) /\
  sameFields (snd (collect host compiler sigint rootPath monorepoInfo on1 st1))
             (snd (collect host compiler sigint rootPath monorepoInfo on2 st2)).
Proof.
  intros Hcalls. unfold collect, bind at 1 3 5 7, reset.
  assert (Hbody :
    Agree
      (if (List.length (packages monorepoInfo) =? 0)%nat then
         reportProgress on1 "root" 1 1 ;;
         errors <- collectFromPath host compiler rootPath "root" ;;
         ret ([] ++ errors)
       else
         collectLoop host compiler sigint on1
           (List.length (packages monorepoInfo)) 0 (packages monorepoInfo) [])
      (if (List.length (packages monorepoInfo) =? 0)%nat then
         reportProgress on2 "root" 1 1 ;;
         errors <- collectFromPath host compiler rootPath "root" ;;
         ret ([] ++ errors)
       else
         collectLoop host compiler sigint on2
           (List.length (packages monorepoInfo)) 0 (packages monorepoInfo) [])).
  { destruct (List.length (packages monorepoInfo) =? 0)%nat.
    - apply Agree_bind; [apply Hcalls|]. intros _.
      apply Agree_bind; [apply Stable_Agree, Stable_collectFromPath|].
      intros es. apply Stable_Agree, Stable_ret.
    - apply Agree_collectLoop. intros label cur. apply Hcalls. }
  apply Hbody. split; reflexivity.
Qed.

(** X3.  Nothing of an earlier run leaks into the next: started from any
    two collectors, with any listener, [collect] has the same outcome (the
    same records, or the same error) and leaves the same counter and
    flag. *)
Theorem collect_forgets_earlier_runs (rootPath : string)
    (monorepoInfo : MonorepoInfo) (onProgress : option ProgressCallback)
    (st1 st2 : Collector) :
  fst (collect host compiler sigint rootPath monorepoInfo onProgress st1)
  = fst (collect host compiler sigint rootPath monorepoInfo onProgress st2) /\
  sameFields
    (snd (collect host compiler sigint rootPath monorepoInfo onProgress st1))
    (snd (collect host compiler sigint rootPath monorepoInfo onProgress st2)).
Proof.
  apply collect_agree. intros label cur total.
  apply Stable_Agree, Stable_reportProgress.
Qed.

(** The first call of a listener that throws ends the run with the
    listener's error. *)
Lemma collect_listener_throws (rootPath : string) (monorepoInfo : MonorepoInfo)
    (listener : ProgressCallback) (st0 : Collector)
    (pkg : PackageInfo) (rest : list PackageInfo) (msg : string) :
  units rootPath monorepoInfo = pkg :: rest ->
  listener (pkg_name pkg) 1%nat (List.length (pkg :: rest)) = Throw msg ->
  fst (collect host compiler sigint rootPath monorepoInfo (Some listener) st0)
  = Throw msg.
Proof.
  unfold units. intros Hunits Hthrow.
  destruct (packages monorepoInfo) as [|p ps] eqn:Hpk.
  - injection Hunits as <- <-. simpl in Hthrow.
    unfold collect, bind at 1, reset. rewrite Hpk. simpl.
    unfold bind, emit, call. simpl. now rewrite Hthrow.
  - injection Hunits as -> ->. simpl in Hthrow.
    rewrite collect_packages by (rewrite Hpk; discriminate). rewrite Hpk.
    cbn [collectLoop]. unfold bind at 1, isInterrupted. cbn [interrupted].
    unfold bind at 1. unfold reportProgress, bind at 1, emit, call. simpl.
    now rewrite Hthrow.
Qed.

(** X4.  The progress listener only observes as long as it returns: a
    listener whose calls all return leaves [collect] with the outcome, the
    counter and the flag it has without a listener.  A listener that throws
    at its first call is not caught: [collect] ends with the listener's
    error. *)
Theorem progress_listener_only_observes (rootPath : string)
    (monorepoInfo : MonorepoInfo) (onProgress : option ProgressCallback)
    (st0 : Collector) :
  (listenerReturns onProgress ->
   fst (collect host compiler sigint rootPath monorepoInfo onProgress st0)
   = fst (collect host compiler sigint rootPath monorepoInfo None st0) /\
   sameFields
     (snd (collect host compiler sigint rootPath monorepoInfo onProgress st0))
     (snd (collect host compiler sigint rootPath monorepoInfo None st0))) /\
  (forall listener pkg rest msg,
      onProgress = Some listener ->
      units rootPath monorepoInfo = pkg :: rest ->
      listener (pkg_name pkg) 1%nat (List.length (pkg :: rest)) = Throw msg ->
      fst (collect host compiler sigint rootPath monorepoInfo onProgress st0)
      = Throw msg).
Proof.
  split.
  - intros Hret. apply collect_agree. intros label cur total.
    apply Agree_reportProgress; [exact Hret|]. intros l E. discriminate.
  - intros listener pkg rest msg -> Hunits Hthrow.
    now apply (collect_listener_throws _ _ _ _ pkg rest).
Qed.

(** ** Labels *)

Lemma collectFromPath_labelled (packagePath label : string) (st : Collector)
    (es : list TypeScriptError) (st' : Collector) :
  collectFromPath host compiler packagePath label st = (Ok es, st') ->
  Forall (fun e => packageName e = label) es.
Proof.
  unfold collectFromPath, bind at 1, isInterrupted.
  destruct (interrupted st) eqn:Hi.
  - intros H. injection H as <- _. constructor.
  - destruct (findTsConfig host packagePath) as [p|].
    + unfold try_catch, bind at 1. rewrite Hi.
      destruct (collectErrorsFromProject_outcome host compiler p label)
        as [[m H] | [ds H]]; rewrite H.
      * unfold bind, when, isInterrupted. rewrite Hi. simpl.
        intros E. injection E as <- _. constructor.
      * destruct (formatDiagnostics_run host ds label st)
          as (es' & Hes & _ & _ & _ & Hnames).
        rewrite Hes. intros E. injection E as <- _. exact Hnames.
    + unfold bind, when, isInterrupted. rewrite Hi. simpl.
      intros E. injection E as <- _. constructor.
Qed.

Lemma collectLoop_chunks (onProgress : bool) (total : nat)
    (pkgs : list PackageInfo) :
  forall (i : nat) (acc : list TypeScriptError) (st : Collector)
         (res : list TypeScriptError) (st' : Collector),
    collectLoop host compiler sigint
        (returningListener onProgress) total i pkgs acc st
    = (Ok res, st') ->
    exists chunks,
      res = acc ++ List.concat chunks /\ Forall2 labelledBy pkgs chunks.
Proof.
  induction pkgs as [|pkg rest IH]; intros i acc st res st' Hrun.
  - simpl in Hrun. injection Hrun as <- _. exists []. simpl.
    rewrite app_nil_r. split; [reflexivity|constructor].
  - destruct (interrupted st) eqn:Hi.
    + rewrite (collectLoop_stopped _ _ _ _ _ _ _ _ _ Hi) in Hrun. discriminate.
    + rewrite (collectLoop_cons _ _ _ _ _ _ _ _ _ _ Hi) in Hrun.
      match type of Hrun with
      | context [collectFromPath _ _ ?p ?n ?s] =>
          destruct (collectFromPath host compiler p n s) as [[es|e] st2] eqn:H2
      end; [|discriminate].
      destruct (IH _ _ _ _ _ Hrun) as (chunks & Hres & Hall).
      exists (es :: chunks). simpl. split.
      * now rewrite Hres, app_assoc.
      * constructor; [|exact Hall].
        exact (collectFromPath_labelled _ _ _ _ _ H2).
Qed.

(** X5.  Whatever happens during a run that returns, its records come unit by
    unit: they are the concatenation, in the order of the work list, of one
    (possibly empty) chunk per unit, and every record of a chunk carries
    the name of its unit. *)
Theorem records_come_unit_by_unit (rootPath : string)
    (monorepoInfo : MonorepoInfo) (onProgress : option ProgressCallback) (st0 : Collector)
    (records : list TypeScriptError) (st' : Collector) :
  collect host compiler sigint rootPath monorepoInfo onProgress st0
  = (Ok records, st') ->
  exists chunks,
    records = List.concat chunks /\
    Forall2 labelledBy (units rootPath monorepoInfo) chunks.
Proof.
  intros Hany.
  pose proof (collect_returned host compiler sigint _ _ _ true _ _ _ Hany)
    as Hret.
  destruct (collect host compiler sigint rootPath monorepoInfo
              (returningListener true) st0) as [r stR] eqn:Hrun.
  simpl in Hret. subst r. clear Hany. unfold units.
  destruct (packages monorepoInfo) as [|pkg rest] eqn:Hpk.
  - rewrite (collect_root _ _ _ _ _ _ _ Hpk) in Hrun.
    exists [records]. simpl. rewrite app_nil_r. split; [reflexivity|].
    constructor; [|constructor].
    exact (collectFromPath_labelled _ _ _ _ _ Hrun).
  - rewrite collect_packages in Hrun by (rewrite Hpk; discriminate).
    rewrite Hpk in Hrun.
    destruct (collectLoop_chunks _ _ _ _ _ _ _ _ Hrun) as (chunks & Hres & Hall).
    exists chunks. auto.
Qed.

(** ** Interruption *)

Lemma first_signal_or_quiet (n : nat) :
  (forall j, (j < n)%nat -> sigint j = false) \/
  (exists k, (k < n)%nat /\ sigint k = true /\
             forall j, (j < k)%nat -> sigint j = false).
Proof.
  induction n as [|n [Hq | (k & Hk & Hs & Hq)]].
  - left. intros j Hj. lia.
  - destruct (sigint n) eqn:Hn.
    + right. exists n. repeat split; auto.
    + left. intros j Hj. destruct (Nat.eq_dec j n) as [->|Hne]; [exact Hn|].
      apply Hq. lia.
  - right. exists k. repeat split; auto.
Qed.

Lemma collect_numbered (rootPath : string) (monorepoInfo : MonorepoInfo)
    (onProgress : bool) (st0 : Collector)
    (records : list TypeScriptError) (st' : Collector) :
  collect host compiler sigint rootPath monorepoInfo
      (returningListener onProgress) st0
  = (Ok records, st') ->
  numberedFrom 0 records.
Proof.
  intros Hrun.
  destruct (packages monorepoInfo) as [|pkg rest] eqn:Hpk.
  - rewrite (collect_root _ _ _ _ _ _ _ Hpk) in Hrun.
    match type of Hrun with
    | context [collectFromPath _ _ ?p ?n ?s] =>
        destruct (collectFromPath_run host compiler p n s)
          as (es & st2 & H2 & _ & _ & Hnum)
    end.
    rewrite H2 in Hrun. injection Hrun as <- _. exact Hnum.
  - rewrite collect_packages in Hrun by (rewrite Hpk; discriminate).
    eapply collectLoop_numbered with (3 := Hrun); simpl; auto.
Qed.

(** X6.  A run that returns a list has lost at most its last unit: the list
    holds the records of every unit of the work list, or of every unit but
    the last (when the signal arrived just before the last unit).  Any
    earlier interruption makes [collect] throw. *)
Theorem returned_list_misses_at_most_last_unit (rootPath : string)
    (monorepoInfo : MonorepoInfo) (onProgress : option ProgressCallback) (st0 : Collector)
    (records : list TypeScriptError) (st' : Collector) :
  collect host compiler sigint rootPath monorepoInfo onProgress st0
  = (Ok records, st') ->
  records = recordsFrom host compiler 0 (units rootPath monorepoInfo) \/
  records
  = recordsFrom host compiler 0 (removelast (units rootPath monorepoInfo)).
Proof.
  intros Hany.
  pose proof (collect_returned host compiler sigint _ _ _ true _ _ _ Hany)
    as Hret.
  destruct (collect host compiler sigint rootPath monorepoInfo
              (returningListener true) st0) as [r stR] eqn:Hrun.
  simpl in Hret. subst r. clear Hany. unfold units.
  destruct (packages monorepoInfo) as [|pkg rest] eqn:Hpk.
  - left. rewrite (collect_root _ _ _ _ _ _ _ Hpk) in Hrun.
    match type of Hrun with
    | context [collectFromPath _ _ _ _ ?s] =>
        destruct (collectFromPath_unitRecords host compiler
                    (mkPackageInfo "root" rootPath None) s eq_refl)
          as (st2 & H2 & _)
    end.
    simpl in H2. rewrite H2 in Hrun. injection Hrun as <- _.
    simpl. now rewrite app_nil_r.
  - rewrite collect_packages in Hrun by (rewrite Hpk; discriminate).
    rewrite Hpk in Hrun.
    destruct (first_signal_or_quiet (List.length (pkg :: rest)))
      as [Hq | (k & Hk & Hs & Hq)].
    + left.
      pose proof (collectLoop_quiet host compiler sigint true
                    (List.length (pkg :: rest)) (pkg :: rest) 0 []
                    (mkCollector 0 false (events st0)) eq_refl) as Hquiet.
      rewrite Hrun in Hquiet. simpl fst in Hquiet.
      assert (E : Ok records
                  = Ok ([] ++ recordsFrom host compiler 0 (pkg :: rest)))
        by (apply Hquiet; intros j Hj; apply Hq; lia).
      injection E as ->. reflexivity.
    + right.
      destruct (collectLoop_first_signal host compiler sigint true
                  (List.length (pkg :: rest)) k (pkg :: rest) 0 []
                  (mkCollector 0 false (events st0)) eq_refl)
        as (st2 & Hloop & _); auto.
      { intros j Hj. apply Hq. lia. }
      rewrite Hrun in Hloop.
      destruct (S k <? List.length (pkg :: rest))%nat eqn:Hlast;
        [discriminate|].
      injection Hloop as -> _.
      apply Nat.ltb_ge in Hlast.
      rewrite removelast_firstn_len.
      replace (Nat.pred (List.length (pkg :: rest))) with k by (simpl in *; lia).
      reflexivity.
Qed.

(** ** Units that are skipped *)

Lemma collectFromPath_no_tsconfig (pkg : PackageInfo) (st : Collector) :
  findTsConfig host (pkg_path pkg) = None ->
  interrupted st = false ->
  collectFromPath host compiler (pkg_path pkg) (pkg_name pkg) st
  = (Ok [], mkCollector (errorIdCounter st) false
              (events st ++ [ConsoleWarn (pkg_name pkg)])).
Proof.
  intros Hfind Hi. unfold collectFromPath, bind at 1, isInterrupted.
  rewrite Hi, Hfind. unfold bind, when, isInterrupted, emit. rewrite Hi.
  simpl. now rewrite Hi.
Qed.

Lemma unitRecords_no_tsconfig (pkg : PackageInfo) (c : Z) :
  findTsConfig host (pkg_path pkg) = None ->
  unitRecords host compiler pkg c = [].
Proof.
  intros Hfind. unfold unitRecords.
  now rewrite (collectFromPath_no_tsconfig pkg (mkCollector c false [])
                 Hfind eq_refl).
Qed.

(** X7.  A unit without [tsconfig.json] is skipped with one warning on the
    console: it yields no record and leaves the counter alone, and an
    uninterrupted run returns exactly what it returns when the unit is
    taken out of the package list (as long as a package is left). *)
Theorem unit_without_tsconfig_is_skipped (scanRoot : string)
    (monorepoInfo : MonorepoInfo) (onProgress : bool) (st0 : Collector)
    (pre : list PackageInfo) (pkg : PackageInfo) (post : list PackageInfo) :
  (forall i, sigint i = false) ->
  packages monorepoInfo = pre ++ pkg :: post ->
  findTsConfig host (pkg_path pkg) = None ->
  (forall st, interrupted st = false ->
     collectFromPath host compiler (pkg_path pkg) (pkg_name pkg) st
     = (Ok [], mkCollector (errorIdCounter st) false
                 (events st ++ [ConsoleWarn (pkg_name pkg)]))) /\
  (pre ++ post <> [] ->
   fst (collect host compiler sigint scanRoot monorepoInfo
       (returningListener onProgress) st0)
   = fst (collect host compiler sigint scanRoot
            (mkMonorepoInfo (isMonorepo monorepoInfo) (type monorepoInfo)
               (rootPath monorepoInfo) (pre ++ post))
            (returningListener onProgress) st0)).
Proof.
  intros Hquiet Hpk Hfind. split.
  - intros st Hi. now apply collectFromPath_no_tsconfig.
  - intros Hne.
    rewrite !collect_quiet by (auto; simpl; rewrite ?Hpk; auto; now destruct pre).
    simpl packages. rewrite Hpk, !recordsFrom_app. simpl.
    rewrite (unitRecords_no_tsconfig pkg _ Hfind). simpl.
    now rewrite Z.add_0_r.
Qed.

(** X8.  A unit whose collection throws leaves one line on the console, with
    the message thrown, and nothing else: no record, the counter as it
    was. *)
Theorem failing_unit_is_logged (pkg : PackageInfo) (msg : string)
    (st : Collector) :
  unitThrows host compiler pkg msg ->
  interrupted st = false ->
  collectFromPath host compiler (pkg_path pkg) (pkg_name pkg) st
  = (Ok [], mkCollector (errorIdCounter st) false
              (events st ++ [ConsoleError (pkg_name pkg) msg])).
Proof.
  intros (p & Hfind & Hthrow) Hi.
  unfold collectFromPath, bind at 1, isInterrupted. rewrite Hi, Hfind.
  unfold try_catch, bind at 1. rewrite Hi.
  destruct (collectErrorsFromProject_outcome host compiler p (pkg_name pkg))
    as [[m H] | [ds H]].
  - rewrite H in Hthrow. simpl in Hthrow. injection Hthrow as ->.
    rewrite H. unfold bind, when, isInterrupted, emit. rewrite Hi.
    simpl. now rewrite Hi.
  - rewrite H in Hthrow.
    destruct (formatDiagnostics_run host ds (pkg_name pkg)
                (mkCollector 0 false [])) as (es & Hes & _).
    rewrite Hes in Hthrow. discriminate.
Qed.

(** ** Normalization *)

Lemma formatDiagnostic_fields (label : string) (d : ts.Diagnostic)
    (st : Collector) (e : TypeScriptError) (st' : Collector) :
  formatDiagnostic host label d st = (Ok e, st') ->
  errorCode e = ts.code d /\
  packageName e = label /\
  description e = topLevelText (ts.messageText d) /\
  category e = Some (categoryName (ts.category d)).
Proof.
  unfold formatDiagnostic, topLevelText.
  destruct (ts.file d) as [f|], (ts.start d) as [s|];
    try destruct (ts.getLineAndCharacterOfPosition f s) as [l c];
    intros H; injection H as <- _; simpl;
    (repeat split; try reflexivity);
    destruct (ts.category d); reflexivity.
Qed.

(** X9.  Normalization keeps the checker's code, labels the record with the
    unit, takes the text of the message or of the head of its chain
    (whatever hangs below the head), and shows the category by its
    lower-case name. *)
Theorem records_keep_code_text_and_category (diagnostics : list ts.Diagnostic)
    (label : string) (st : Collector) :
  exists es st',
    formatDiagnostics host diagnostics label st = (Ok es, st') /\
    Forall2
      (fun d e =>
         errorCode e = ts.code d /\
         packageName e = label /\
         description e = topLevelText (ts.messageText d) /\
         category e = Some (categoryName (ts.category d)))
      diagnostics es.
Proof.
  revert st. induction diagnostics as [|d ds IH]; intros st.
  - exists [], st. split; [reflexivity|constructor].
  - destruct (formatDiagnostic host label d st) as [[e|m] st1] eqn:He.
    + destruct (IH st1) as (es & st2 & Hes & Hall).
      exists (e :: es), st2. cbn [formatDiagnostics]. unfold bind at 1.
      rewrite He. unfold bind at 1. rewrite Hes. split; [reflexivity|].
      constructor; [|exact Hall].
      exact (formatDiagnostic_fields _ _ _ _ _ He).
    + destruct (formatDiagnostic_run host label d st) as (e & He' & _).
      rewrite He' in He. discriminate.
Qed.

(** ** Progress *)

Lemma collectFromPath_events (packagePath label : string) (st : Collector)
    (es : list TypeScriptError) (st' : Collector) :
  collectFromPath host compiler packagePath label st = (Ok es, st') ->
  exists evs, events st' = events st ++ evs /\ filter isProgress evs = [].
Proof.
  unfold collectFromPath, bind at 1, isInterrupted.
  destruct (interrupted st) eqn:Hi.
  - intros H. injection H as _ <-. exists []. now rewrite app_nil_r.
  - destruct (findTsConfig host packagePath) as [p|].
    + unfold try_catch, bind at 1. rewrite Hi.
      destruct (collectErrorsFromProject_outcome host compiler p label)
        as [[m H] | [ds H]]; rewrite H.
      * unfold bind, when, isInterrupted, emit. rewrite Hi. simpl.
        intros E. injection E as _ <-. simpl.
        exists [ConsoleError label m]. auto.
      * destruct (formatDiagnostics_run host ds label st) as (es' & Hes & _).
        rewrite Hes. intros E. injection E as _ <-. simpl.
        exists []. now rewrite app_nil_r.
    + unfold bind, when, isInterrupted, emit. rewrite Hi. simpl.
      intros E. injection E as _ <-. simpl.
      exists [ConsoleWarn label]. auto.
Qed.

Lemma collectLoop_progress (onProgress : bool) (total : nat)
    (pkgs : list PackageInfo) :
  forall (i : nat) (acc : list TypeScriptError) (st : Collector),
    interrupted st = false ->
    (forall j, (i <= j < i + List.length pkgs)%nat -> sigint j = false) ->
    filter isProgress
      (events (snd (collectLoop host compiler sigint
          (returningListener onProgress) total i pkgs
                      acc st)))
    = filter isProgress (events st)
      ++ if onProgress then progressCalls total i pkgs else [].
Proof.
  induction pkgs as [|pkg rest IH]; intros i acc st Hi Hsig.
  - simpl. destruct onProgress; now rewrite app_nil_r.
  - rewrite (collectLoop_cons _ _ _ _ _ _ _ _ _ _ Hi).
    rewrite (Hsig i) by (simpl; lia).
    match goal with
    | |- context [collectFromPath _ _ _ _ ?s] =>
        destruct (collectFromPath_unitRecords host compiler pkg s eq_refl)
          as (st1 & Hrun & Hi1 & _)
    end.
    rewrite Hrun.
    destruct (collectFromPath_events _ _ _ _ _ Hrun) as (evs & Hev & Hnone).
    rewrite (IH (S i) _ st1 Hi1) by (intros j Hj; apply Hsig; simpl; lia).
    rewrite Hev. simpl events. rewrite !filter_app, Hnone, app_nil_r.
    destruct onProgress; simpl.
    + now rewrite <- app_assoc.
    + now rewrite !app_nil_r.
Qed.

(** X10.  In a run that is not interrupted the listener, when there is one, is
    called once per unit, in the order of the work list, with the unit's
    name, its position counted from 1 and the number of units; without a
    listener no call is made. *)
Theorem progress_is_reported_per_unit (rootPath : string)
    (monorepoInfo : MonorepoInfo) (onProgress : bool) (st0 : Collector) :
  (forall i, sigint i = false) ->
  filter isProgress
    (events (snd (collect host compiler sigint rootPath monorepoInfo
                    (returningListener onProgress) st0)))
  = filter isProgress (events st0)
    ++ if onProgress
       then progressCalls (List.length (units rootPath monorepoInfo)) 0
              (units rootPath monorepoInfo)
       else [].
Proof.
  intros Hquiet. unfold units.
  destruct (packages monorepoInfo) as [|pkg rest] eqn:Hpk.
  - rewrite (collect_root _ _ _ _ _ _ _ Hpk).
    match goal with
    | |- context [collectFromPath _ _ ?p ?n ?s] =>
        destruct (collectFromPath_run host compiler p n s)
          as (es & st2 & H2 & _)
    end.
    rewrite H2. destruct (collectFromPath_events _ _ _ _ _ H2) as (evs & Hev & Hnone).
    simpl snd. rewrite Hev. simpl events.
    rewrite !filter_app, Hnone, app_nil_r.
    destruct onProgress; reflexivity.
  - rewrite collect_packages by (rewrite Hpk; discriminate).
    rewrite Hpk, collectLoop_progress; auto.
Qed.

(** ** From the collector to the report *)

(** X11.  The id column of the report written for the result of a run never
    shows the same value twice. *)
Theorem report_id_column_has_no_repeats (rootPath : string)
    (monorepoInfo : MonorepoInfo) (onProgress : option ProgressCallback) (st0 : Collector)
    (records : list TypeScriptError) (st' : Collector) :
  collect host compiler sigint rootPath monorepoInfo onProgress st0
  = (Ok records, st') ->
  NoDup (map (fun fields => nth 0 fields EmptyString)
           (tl (parseTsv (TsvGenerator.generate records)))).
Proof.
  intros Hany.
  pose proof (collect_returned host compiler sigint _ _ _ true _ _ _ Hany)
    as Hret.
  destruct (collect host compiler sigint rootPath monorepoInfo
              (returningListener true) st0) as [r stR] eqn:Hrun.
  simpl in Hret. subst r. clear Hany. rewrite parseTsv_generate. simpl tl. rewrite map_map. simpl.
  pose proof (numberedFrom_ids _ _ (collect_numbered _ _ _ _ _ _ Hrun)) as Hids.
  replace (map (fun e => JS.Number_toString (id e)) records)
    with (map JS.Number_toString (map id records)) by apply map_map.
  rewrite Hids.
  apply Injective_map_NoDup; [intros a b; apply Number_toString_inj|].
  apply Injective_map_NoDup; [intros a b H; lia|].
  apply seq_NoDup.
Qed.

(** ** What can go wrong *)

Lemma collectLoop_throws (onProgress : option ProgressCallback) (total : nat)
    (pkgs : list PackageInfo) :
  forall (i : nat) (acc : list TypeScriptError) (st : Collector)
         (msg : string) (st' : Collector),
    interrupted st = false ->
    collectLoop host compiler sigint onProgress total i pkgs acc st
    = (Throw msg, st') ->
    (msg = "Interrupted by user" /\
     exists k, (i <= k)%nat /\ (S k < i + List.length pkgs)%nat /\
               sigint k = true) \/
    (exists listener label cur,
        onProgress = Some listener /\ listener label cur total = Throw msg).
Proof.
  induction pkgs as [|pkg rest IH]; intros i acc st msg st' Hi Hrun.
  - discriminate.
  - destruct (collectLoop_step host compiler sigint onProgress total i pkg rest
                acc st Hi) as (evs & [(l & m & Hl & Hm & Hthrow) | Hstep]).
    + rewrite Hthrow in Hrun. injection Hrun as <- _.
      right. exists l, (pkg_name pkg), (i + 1)%nat. auto.
    + rewrite Hstep in Hrun.
      match type of Hrun with
      | context [collectFromPath _ _ ?p ?n ?s] =>
          destruct (collectFromPath_run host compiler p n s)
            as (es & st1 & H1 & Hi1 & _)
      end.
      rewrite H1 in Hrun. simpl in Hi1.
      destruct (sigint i) eqn:Hsig.
      * rewrite (collectLoop_stopped _ _ _ _ _ _ _ _ _ Hi1) in Hrun.
        destruct rest as [|p ps]; [discriminate|].
        injection Hrun as <- _. left. split; [reflexivity|].
        exists i. simpl. repeat split; auto; lia.
      * destruct (IH _ _ _ _ _ Hi1 Hrun)
          as [(-> & k & Hk1 & Hk2 & Hk3) | Hlistener]; [|auto].
        left. split; [reflexivity|].
        exists k. simpl. repeat split; auto; lia.
Qed.

(** X12.  [collect] throws for two reasons only: an interruption, with the
    message ["Interrupted by user"], after a signal arrived while the loop
    was yielding before a unit that was not the last; or an error thrown
    by the progress listener, which is passed on as it is.  Engine failures
    never escape. *)
Theorem collect_throws_on_interruption_or_listener_error (rootPath : string)
    (monorepoInfo : MonorepoInfo) (onProgress : option ProgressCallback)
    (st0 : Collector) (msg : string) (st' : Collector) :
  collect host compiler sigint rootPath monorepoInfo onProgress st0
  = (Throw msg, st') ->
  (msg = "Interrupted by user" /\
   exists k, (S k < List.length (packages monorepoInfo))%nat /\
             sigint k = true) \/
  (exists listener label cur total,
      onProgress = Some listener /\ listener label cur total = Throw msg).
Proof.
  intros Hrun.
  destruct (packages monorepoInfo) as [|pkg rest] eqn:Hpk.
  - unfold collect, bind at 1, reset in Hrun. rewrite Hpk in Hrun.
    simpl in Hrun. unfold bind at 1 in Hrun.
    destruct (reportProgress_run onProgress "root" 1 1
                (mkCollector 0 false (events st0)))
      as (r & evs & Hrep & [-> | (l & m & Hl & Hm & ->)]);
      rewrite Hrep in Hrun.
    + unfold bind in Hrun.
      match type of Hrun with
      | context [collectFromPath _ _ ?p ?n ?s] =>
          destruct (collectFromPath_run host compiler p n s)
            as (es & st2 & H2 & _)
      end.
      rewrite H2 in Hrun. discriminate.
    + injection Hrun as <- _. right. exists l, "root", 1%nat, 1%nat. auto.
  - rewrite collect_packages in Hrun by (rewrite Hpk; discriminate).
    rewrite Hpk in Hrun.
    destruct (collectLoop_throws _ _ _ _ _
                (mkCollector 0 false (events st0)) _ _ eq_refl Hrun)
      as [(-> & k & _ & Hk & Hs) | (l & label & cur & Hl & Hm)].
    + left. split; [reflexivity|]. exists k. auto.
    + right. exists l, label, cur, (List.length (pkg :: rest)). auto.
Qed.

(** ** The order inside a unit *)

(** X13.  A unit whose configuration reads and parses without error and whose
    program is built contributes one record per diagnostic: the semantic
    ones first, then the syntactic ones, the declaration ones and those of
    the configuration file, each group in the engine's order. *)
Theorem unit_records_follow_engine_order (pkg : PackageInfo) (c : Z)
    (tsconfigPath : string) (configFile : ts.ConfigFile Config)
    (parsedConfig : ts.ParsedCommandLine CompilerOptions)
    (program : ts.Program)
    (semantic syntactic declaration configParsing : list ts.Diagnostic) :
  findTsConfig host (pkg_path pkg) = Some tsconfigPath ->
  ts.readConfigFile compiler tsconfigPath = Ok configFile ->
  ts.error configFile = None ->
  ts.parseJsonConfigFileContent compiler (ts.config configFile)
    (path_dirname host tsconfigPath) = Ok parsedConfig ->
  ts.errors parsedConfig = [] ->
  ts.createProgram compiler (ts.fileNames parsedConfig)
    (ts.options parsedConfig) = Ok program ->
  ts.getSemanticDiagnostics program = Ok semantic ->
  ts.getSyntacticDiagnostics program = Ok syntactic ->
  ts.getDeclarationDiagnostics program = Ok declaration ->
  ts.getConfigFileParsingDiagnostics program = Ok configParsing ->
  Ok (unitRecords host compiler pkg c)
  = fst (formatDiagnostics host
           (semantic ++ syntactic ++ declaration ++ configParsing)
           (pkg_name pkg) (mkCollector c false [])) /\
  List.length (unitRecords host compiler pkg c)
  = (List.length semantic + List.length syntactic
     + List.length declaration + List.length configParsing)%nat.
Proof.
  intros Hfind Hread Herr Hparse Hnone Hprog H1 H2 H3 H4.
  destruct (formatDiagnostics_run host
              (semantic ++ syntactic ++ declaration ++ configParsing)
              (pkg_name pkg) (mkCollector c false []))
    as (es & Hes & Hlen & _).
  assert (Hunit : unitRecords host compiler pkg c = es).
  { unfold unitRecords, collectFromPath, bind at 1, isInterrupted. simpl.
    rewrite Hfind. unfold try_catch, bind at 1. simpl.
    unfold collectErrorsFromProject, bind at 1, call. rewrite Hread, Herr.
    unfold bind at 1. rewrite Hparse, Hnone. cbn [List.length Nat.ltb Nat.leb].
    unfold bind at 1. rewrite Hprog.
    unfold bind at 1. rewrite H1.
    unfold bind at 1. rewrite H2.
    unfold bind at 1. rewrite H3.
    unfold bind at 1. rewrite H4.
    now rewrite Hes. }
  rewrite Hunit, Hes. split; [reflexivity|].
  rewrite Hlen, !length_app. lia.
Qed.

End MoreCollectorFacts.

(* ===================================================================== *)
(** * Further properties of detection *)
(* ===================================================================== *)

Section MoreDetectorFacts.

Variable host : Host.
Variable turbo_detect : string -> Exc bool.
Variable turbo_getPackages : string -> Exc (list PackageInfo).

Local Abbreviation defaults :=
  (DEFAULT_DETECTORS host turbo_detect turbo_getPackages).

(** ** The orchestrator *)

Lemma tryDetectors_found (root : string) (detectors : list MonorepoDetector)
    (info : MonorepoInfo) :
  tryDetectors root detectors = Ok (Some info) ->
  isMonorepo info = true /\ rootPath info = root.
Proof.
  induction detectors as [|d l IH]; simpl; [discriminate|].
  destruct (detect d root) as [[|]|e]; [| |discriminate].
  - destruct (getPackages d root) as [pkgs|e]; [|discriminate].
    intros H. injection H as <-. auto.
  - exact IH.
Qed.

Lemma tryDetectors_throws (root : string)
    (pre : list MonorepoDetector) (d : MonorepoDetector)
    (post : list MonorepoDetector) (msg : string) :
  noneDetects root pre ->
  detect d root = Throw msg ->
  tryDetectors root (pre ++ d :: post) = Throw msg.
Proof.
  intros Hpre Hd. induction Hpre as [|x l Hx _ IH]; simpl.
  - now rewrite Hd.
  - now rewrite Hx.
Qed.

(** X14.  Every result of [detectMonorepo] names the root it was asked about;
    and a result that is not a monorepo has type [none] and at most one
    package, which lies at the root. *)
Theorem result_that_is_no_monorepo (root : string)
    (customDetectors : list MonorepoDetector) (info : MonorepoInfo) :
  detectMonorepo host turbo_detect turbo_getPackages root customDetectors
  = Ok info ->
  rootPath info = root /\
  (isMonorepo info = false ->
   type info = none /\
   (List.length (packages info) <= 1)%nat /\
   Forall (fun p => pkg_path p = root) (packages info)).
Proof.
  unfold detectMonorepo.
  destruct (tryDetectors root (customDetectors ++ defaults))
    as [[found|]|e] eqn:Htry; [| |discriminate].
  - intros H. injection H as <-.
    destruct (tryDetectors_found _ _ _ Htry) as [Hmono Hroot].
    split; [exact Hroot|]. intros Hno. congruence.
  - destruct (readPackageJson host _); intros H; injection H as <-; simpl;
      repeat split; auto.
Qed.

(** X15.  The orchestrator catches nothing: when the detector that is asked
    first after those that declined throws, from [detect] or, once it has
    accepted the root, from [getPackages], then [detectMonorepo] throws the
    same error. *)
Theorem detector_errors_propagate (root : string)
    (customDetectors pre : list MonorepoDetector) (d : MonorepoDetector)
    (post : list MonorepoDetector) (msg : string) :
  customDetectors ++ defaults = pre ++ d :: post ->
  noneDetects root pre ->
  detect d root = Throw msg \/
  (detect d root = Ok true /\ getPackages d root = Throw msg) ->
  detectMonorepo host turbo_detect turbo_getPackages root customDetectors
  = Throw msg.
Proof.
  intros Hsplit Hpre [Hd | [Hd Hp]].
  - unfold detectMonorepo.
    now rewrite Hsplit, (tryDetectors_throws _ _ _ _ _ Hpre Hd).
  - rewrite (detectMonorepo_first _ _ _ _ _ _ _ _ Hsplit Hpre Hd).
    now rewrite Hp.
Qed.

(** X16.  A root that no detector recognises and whose manifest has no name, or
    an empty one, is the single package ["unknown"]. *)
Theorem unnamed_manifest_is_unknown (root : string)
    (customDetectors : list MonorepoDetector) (packageJson : PackageJson) :
  noneDetects root (customDetectors ++ defaults) ->
  readPackageJson host (path_resolve host root "package.json")
  = Some packageJson ->
  pj_name packageJson = None \/ pj_name packageJson = Some EmptyString ->
  detectMonorepo host turbo_detect turbo_getPackages root customDetectors
  = Ok (mkMonorepoInfo false none root
          [mkPackageInfo "unknown" root (pj_version packageJson)]).
Proof.
  intros Hnone Hread Hname. unfold detectMonorepo.
  rewrite (tryDetectors_none _ _ Hnone), Hread.
  destruct Hname as [-> | ->]; reflexivity.
Qed.

(** X17.  With no caller-supplied detector, a root that the turbo and pnpm
    detectors decline and whose manifest declares workspaces is a yarn
    monorepo when [yarn.lock] exists and an npm monorepo otherwise, with
    the same packages either way. *)
Theorem yarn_lock_decides_yarn_or_npm (root : string) :
  turbo_detect root = Ok false ->
  PnpmDetector_detect host root = false ->
  NpmDetector_detect host root = true ->
  detectMonorepo host turbo_detect turbo_getPackages root []
  = Ok (mkMonorepoInfo true
          (if existsSync host (path_resolve host root "yarn.lock")
           then yarn else npm)
          root (NpmDetector_getPackages host root)).
Proof.
  intros Hturbo Hpnpm Hnpm.
  unfold detectMonorepo, DEFAULT_DETECTORS, TurboDetector, PnpmDetector,
    YarnDetector, NpmDetector.
  cbn [app tryDetectors detect getPackages name].
  rewrite Hturbo, Hpnpm. unfold YarnDetector_detect, fileExists, resolvePath.
  rewrite Hnpm. cbn [andb].
  destruct (existsSync host (path_resolve host root "yarn.lock")); reflexivity.
Qed.

(** X18.  With no caller-supplied detector and no turbo configuration, a root
    that holds [pnpm-workspace.yaml] is a pnpm monorepo even when that file
    cannot be read or parsed, or lists no pattern: the result then has no
    package, and no error is raised. *)
Theorem unusable_pnpm_workspace_is_an_empty_monorepo (root : string) :
  turbo_detect root = Ok false ->
  existsSync host (path_resolve host root "pnpm-workspace.yaml") = true ->
  (exists msg,
      readPnpmWorkspace host (path_resolve host root "pnpm-workspace.yaml")
      = Throw msg) \/
  (exists workspace,
      readPnpmWorkspace host (path_resolve host root "pnpm-workspace.yaml")
      = Ok workspace /\
      (pnpm_packages workspace = None \/ pnpm_packages workspace = Some [])) ->
  detectMonorepo host turbo_detect turbo_getPackages root []
  = Ok (mkMonorepoInfo true pnpm root []).
Proof.
  intros Hturbo Hexists Hbroken.
  unfold detectMonorepo, DEFAULT_DETECTORS, TurboDetector, PnpmDetector.
  cbn [app tryDetectors detect getPackages name].
  rewrite Hturbo.
  unfold PnpmDetector_detect, PnpmDetector_getPackages, fileExists, resolvePath.
  rewrite Hexists. cbn [negb].
  destruct Hbroken as [[msg ->] | (w & -> & [-> | ->])]; reflexivity.
Qed.

End MoreDetectorFacts.

(** ** Enumeration *)

Section EnumerationFacts.

Variable host : Host.

Lemma packagesOfFiles_iff (root : string) (files : list string)
    (p : PackageInfo) :
  In p (packagesOfFiles host root files) <->
  exists file packageJson,
    In file files /\
    readPackageJson host (path_resolve host root file) = Some packageJson /\
    pj_name packageJson = Some (pkg_name p) /\
    pkg_name p <> EmptyString /\
    pkg_path p = path_dirname host (path_resolve host root file) /\
    pkg_version p = pj_version packageJson.
Proof.
  unfold packagesOfFiles. rewrite in_flat_map. split.
  - intros (file & Hfile & Hp).
    destruct (readPackageJson host (path_resolve host root file))
      as [pj|] eqn:Hread; [|destruct Hp].
    destruct (pj_name pj) as [[|a n]|] eqn:Hname; simpl in Hp;
      try (destruct Hp as [<- | []]); try contradiction.
    exists file, pj. simpl. repeat split; auto. discriminate.
  - intros (file & pj & Hfile & Hread & Hname & Hne & Hpath & Hversion).
    exists file. split; [exact Hfile|]. rewrite Hread, Hname.
    destruct p as [n pa v]. simpl in *. subst pa v.
    destruct n as [|a n]; [congruence|]. simpl. auto.
Qed.

Lemma packagesOfPatterns_iff (root : string) (patterns : list string)
    (p : PackageInfo) :
  In p (packagesOfPatterns host root patterns) <->
  readFromGlob host root (manifestGlobs host patterns) p.
Proof.
  unfold packagesOfPatterns, readFromGlob, manifestGlobs.
  rewrite in_flat_map. split.
  - intros (pattern & Hpattern & Hp).
    apply packagesOfFiles_iff in Hp as (file & pj & Hfile & Hrest).
    exists (path_join host pattern "package.json"), file, pj.
    split; [|auto]. apply in_map_iff. eauto.
  - intros (glob & file & pj & Hglob & Hfile & Hrest).
    apply in_map_iff in Hglob as (pattern & <- & Hpattern).
    exists pattern. split; [exact Hpattern|].
    apply packagesOfFiles_iff. eauto.
Qed.

(** X19.  The packages the npm detector (and so the yarn detector, which
    inherits [getPackages]), the pnpm detector and the lerna detector
    enumerate are exactly those read from the manifests that the globs
    [<pattern>/package.json] match, for the patterns of the root manifest's
    [workspaces], of [pnpm-workspace.yaml], and of [lerna.json]
    ([packages/*] when it names none): each has the non-empty name and the
    version of a readable manifest and lies in that manifest's directory.
    A matched manifest that is unreadable or unnamed contributes
    nothing. *)
Theorem enumerated_packages_come_from_manifests (root : string) :
  (forall packageJson workspaces,
      readPackageJson host (path_resolve host root "package.json")
      = Some packageJson ->
      pj_workspaces packageJson = Some workspaces ->
      forall p,
        In p (NpmDetector_getPackages host root) <->
        readFromGlob host root
          (manifestGlobs host (workspacePatterns workspaces)) p) /\
  (forall workspace patterns,
      existsSync host (path_resolve host root "pnpm-workspace.yaml") = true ->
      readPnpmWorkspace host (path_resolve host root "pnpm-workspace.yaml")
      = Ok workspace ->
      pnpm_packages workspace = Some patterns ->
      forall p,
        In p (PnpmDetector_getPackages host root) <->
        readFromGlob host root (manifestGlobs host patterns) p) /\
  (forall lernaJson,
      readLernaJson host (path_resolve host root "lerna.json")
      = Some lernaJson ->
      forall p,
        In p (LernaDetector_getPackages host root) <->
        readFromGlob host root
          (manifestGlobs host
             match lerna_packages lernaJson with
             | Some patterns => patterns
             | None => ["packages/*"]
             end) p).
Proof.
  split; [|split].
  - intros pj ws Hread Hws p.
    unfold NpmDetector_getPackages, resolvePath. rewrite Hread, Hws.
    rewrite packagesOfPatterns_iff.
    destruct ws as [l|[l|]]; reflexivity.
  - intros w patterns Hexists Hread Hpatterns p.
    unfold PnpmDetector_getPackages, fileExists, resolvePath.
    rewrite Hexists, Hread, Hpatterns. cbn [negb].
    destruct patterns as [|q qs]; [|apply packagesOfPatterns_iff].
    split; [intros []|].
    intros (glob & _ & _ & [] & _).
  - intros j Hread p.
    unfold LernaDetector_getPackages, resolvePath. rewrite Hread.
    apply packagesOfPatterns_iff.
Qed.

(** X20.  Asked for packages on a root they do not recognise, the npm, yarn and
    pnpm detectors enumerate nothing. *)
Theorem unrecognised_root_has_no_packages (root : string) :
  (NpmDetector_detect host root = false ->
   getPackages (NpmDetector host) root = Ok [] /\
   getPackages (YarnDetector host) root = Ok []) /\
  (PnpmDetector_detect host root = false ->
   getPackages (PnpmDetector host) root = Ok []).
Proof.
  split.
  - simpl. unfold NpmDetector_detect, NpmDetector_getPackages.
    destruct (readPackageJson host _) as [pj|]; [|auto].
    destruct (pj_workspaces pj) as [[l|[l|]]|]; try discriminate; auto.
  - simpl. unfold PnpmDetector_detect, PnpmDetector_getPackages.
    now intros ->.
Qed.

Lemma nx_primary_ofProject (root : string) (l : list (string * string)) :
  Forall2 (ofProject host root) l
    (map
       (fun '(projectName, projectPath) =>
          let fullPath := path_resolve host root projectPath in
          let packageJsonPath := path_join host fullPath "package.json" in
          if fileExists host packageJsonPath
          then
            let pkgJson := readPackageJson host packageJsonPath in
            mkPackageInfo
              match pkgJson with
              | Some json =>
                  match truthyString (pj_name json) with
                  | Some n => n
                  | None => projectName
                  end
              | None => projectName
              end
              fullPath
              match pkgJson with
              | Some json => pj_version json
              | None => None
              end
          else mkPackageInfo projectName fullPath None)
       l).
Proof.
  induction l as [|[k p] l IH]; cbn [map]; constructor; [|exact IH].
  unfold ofProject, fileExists. cbn [fst snd].
  destruct (existsSync host _) eqn:Hexists; cbn [pkg_path pkg_name pkg_version];
    (split; [reflexivity|]); [|right; auto].
  destruct (readPackageJson host _) as [pj|] eqn:Hread; [|right; auto].
  left. exists pj. repeat split; auto.
  destruct (pj_name pj) as [[|a n]|] eqn:Hname; simpl; auto.
  left. split; [reflexivity|discriminate].
Qed.

(** X21.  When [nx.json] has a project map, that map is the one used,
    whatever [workspace.json] holds.  If it has entries, the Nx detector
    returns one package per entry, in the map's order: each lies at the
    project's path; with a readable manifest there it has the manifest's
    version and name, falling back to the entry's key only when the
    manifest has no name; without one it is named by the key.  If the map
    is empty, the packages are exactly those read from the manifests the
    three default globs match. *)
Theorem nx_json_projects_decide (root : string) (nxJson : NxJson)
    (projects : list (string * string)) :
  readNxJson host (path_resolve host root "nx.json") = Some nxJson ->
  nx_projects nxJson = Some projects ->
  (projects <> [] ->
   Forall2 (ofProject host root) projects (NxDetector_getPackages host root)) /\
  (projects = [] ->
   forall p,
     In p (NxDetector_getPackages host root) <->
     readFromGlob host root
       ["packages/*/package.json"; "apps/*/package.json";
        "libs/*/package.json"] p).
Proof.
  intros Hread Hprojects.
  unfold NxDetector_getPackages, resolvePath. rewrite Hread, Hprojects.
  split.
  - intros Hne. destruct projects as [|e es]; [congruence|].
    cbn [map List.length Nat.eqb]. apply (nx_primary_ofProject root (e :: es)).
  - intros -> p. cbn [map List.length Nat.eqb].
    unfold readFromGlob. rewrite in_flat_map. split.
    + intros (glob & Hglob & Hp).
      apply packagesOfFiles_iff in Hp as (file & pj & Hfile & Hrest).
      exists glob, file, pj. auto.
    + intros (glob & file & pj & Hglob & Hfile & Hrest).
      exists glob. split; [exact Hglob|].
      apply packagesOfFiles_iff. eauto.
Qed.

End EnumerationFacts.

(** ** Detection followed by collection *)

Section PipelineFacts.

Context {Config CompilerOptions : Type}.
Variable host : Host.
Variable compiler : ts.Compiler Config CompilerOptions.
Variable sigint : nat -> bool.
Variable turbo_detect : string -> Exc bool.
Variable turbo_getPackages : string -> Exc (list PackageInfo).

(** X22.  A root that no detector recognises is type-checked as one unit at the
    root itself: under the name of its manifest (["unknown"] when the
    manifest has none) if the manifest can be read and no signal arrives
    during the one yield, and under the label ["root"] if it cannot. *)
Theorem plain_repository_is_checked_at_its_root (root : string)
    (customDetectors : list MonorepoDetector) (onProgress : bool)
    (st0 : Collector) :
  noneDetects root
    (customDetectors ++ DEFAULT_DETECTORS host turbo_detect turbo_getPackages) ->
  exists info,
    detectMonorepo host turbo_detect turbo_getPackages root customDetectors
    = Ok info /\
    (forall packageJson,
        readPackageJson host (path_resolve host root "package.json")
        = Some packageJson ->
        sigint 0 = false ->
        fst (collect host compiler sigint root info
               (returningListener onProgress) st0)
        = Ok (unitRecords host compiler
                (mkPackageInfo
                   match truthyString (pj_name packageJson) with
                   | Some n => n
                   | None => "unknown"
                   end
                   root (pj_version packageJson)) 0)) /\
    (readPackageJson host (path_resolve host root "package.json") = None ->
     fst (collect host compiler sigint root info
            (returningListener onProgress) st0)
     = Ok (unitRecords host compiler (mkPackageInfo "root" root None) 0)).
Proof.
  intros Hnone. unfold detectMonorepo. rewrite (tryDetectors_none _ _ Hnone).
  destruct (readPackageJson host (path_resolve host root "package.json"))
    as [pj|] eqn:Hread; eexists; (split; [reflexivity|]); split.
  - intros pj' E Hsig. injection E as <-.
    rewrite collect_packages by discriminate.
    cbn [packages List.length].
    rewrite collectLoop_quiet.
    + simpl. now rewrite app_nil_r.
    + reflexivity.
    + intros j Hj. simpl in Hj. replace j with 0%nat by lia. exact Hsig.
  - discriminate.
  - discriminate.
  - intros _. rewrite collect_root by reflexivity.
    match goal with
    | |- context [collectFromPath _ _ _ _ ?s] =>
        destruct (collectFromPath_unitRecords host compiler
                    (mkPackageInfo "root" root None) s eq_refl)
          as (st1 & Hrun & _)
    end.
    simpl in Hrun. now rewrite Hrun.
Qed.

End PipelineFacts.

(* ===================================================================== *)
(** * The further properties on the sample roots *)
(* ===================================================================== *)

Module MoreRuns.

Import Sample Sample2.

(** ** The report *)

Lemma clean_field_sample :
  TsvGenerator.escapeField "Cannot find name 'Express'."
  = "Cannot find name 'Express'.".
Proof.
  apply (proj1 (escapeField_settles "Cannot find name 'Express'.")).
  repeat split; reflexivity.
Defined.

Lemma round_trip_sample :
  parseTsv (TsvGenerator.generate [plainRecord])
  = [ TsvGenerator.headers;
      ["2"; "b"; "src/y.ts"; "2304"; "Cannot find name 'Express'."] ].
Proof.
  apply (proj2 (report_round_trip [plainRecord])).
  repeat constructor.
Defined.

Example escaped_report_sample :
  parseTsv (TsvGenerator.generate [dirtyRecord; plainRecord])
  = [ TsvGenerator.headers;
      ["1"; "a"; "src/x.ts"; "2322"; "Type 'A' is not assignable."];
      ["2"; "b"; "src/y.ts"; "2304"; "Cannot find name 'Express'."] ].
Proof. reflexivity. Qed.

(** ** The collector *)

Lemma unit_by_unit_sample :
  exists records st',
    run noSignal [pkgA; pkgB; pkgC] = (Ok records, st') /\
    exists chunks,
      records = List.concat chunks /\
      Forall2 labelledBy [pkgA; pkgB; pkgC] chunks.
Proof.
  eexists _, _. split.
  - vm_compute. reflexivity.
  - eapply (records_come_unit_by_unit host compiler noSignal "/repo"
              (info [pkgA; pkgB; pkgC]) (returningListener true) used).
    vm_compute. reflexivity.
Defined.

Lemma last_unit_lost_sample :
  exists records st',
    run (signalAt 2) [pkgA; pkgC; pkgA] = (Ok records, st') /\
    (records = recordsFrom host compiler 0 [pkgA; pkgC; pkgA] \/
     records = recordsFrom host compiler 0 [pkgA; pkgC]).
Proof.
  eexists _, _. split.
  - vm_compute. reflexivity.
  - eapply (returned_list_misses_at_most_last_unit host compiler (signalAt 2)
              "/repo" (info [pkgA; pkgC; pkgA]) (returningListener true) used).
    vm_compute. reflexivity.
Defined.

Lemma no_tsconfig_sample :
  fst (run noSignal [pkgA; pkgD; pkgC]) = fst (run noSignal [pkgA; pkgC]).
Proof.
  apply (proj2 (unit_without_tsconfig_is_skipped host compiler noSignal "/repo"
                  (info [pkgA; pkgD; pkgC]) true used [pkgA] pkgD [pkgC]
                  (fun _ => eq_refl) eq_refl eq_refl)).
  discriminate.
Defined.

Lemma failing_unit_logged_sample :
  collectFromPath host compiler "/repo/packages/b" "b" (mkCollector 7 false [])
  = (Ok [],
     mkCollector 7 false
       [ConsoleError "b" "Failed to read tsconfig.json: '}' expected."]).
Proof.
  apply (failing_unit_is_logged host compiler pkgB
           "Failed to read tsconfig.json: '}' expected."
           (mkCollector 7 false [])).
  - exists "/repo/packages/b/tsconfig.json". split; reflexivity.
  - reflexivity.
Defined.

Lemma progress_sample :
  filter isProgress (events (snd (run noSignal [pkgA; pkgD])))
  = [Progress "a" 1 2; Progress "d" 2 2].
Proof.
  apply (progress_is_reported_per_unit host compiler noSignal "/repo"
           (info [pkgA; pkgD]) true used).
  intros i. reflexivity.
Defined.

Lemma id_column_sample :
  exists records st',
    run noSignal [pkgA; pkgB; pkgC] = (Ok records, st') /\
    NoDup (map (fun fields => nth 0 fields EmptyString)
             (tl (parseTsv (TsvGenerator.generate records)))).
Proof.
  eexists _, _. split.
  - vm_compute. reflexivity.
  - eapply (report_id_column_has_no_repeats host compiler noSignal "/repo"
              (info [pkgA; pkgB; pkgC]) (returningListener true) used).
    vm_compute. reflexivity.
Defined.

(** An interrupted run, and a run whose listener throws. *)
Lemma thrown_errors_sample :
  (exists msg st',
      run (signalAt 1) [pkgA; pkgC; pkgA] = (Throw msg, st') /\
      ((msg = "Interrupted by user" /\
        exists k, (S k < 3)%nat /\ signalAt 1 k = true) \/
       exists listener label cur total,
         returningListener true = Some listener /\
         listener label cur total = Throw msg)) /\
  (exists msg st',
      collect host compiler noSignal "/repo" (info [pkgA; pkgC])
        (Some failingListener) used = (Throw msg, st') /\
      ((msg = "Interrupted by user" /\
        exists k, (S k < 2)%nat /\ noSignal k = true) \/
       exists listener label cur total,
         Some failingListener = Some listener /\
         listener label cur total = Throw msg)).
Proof.
  split.
  - eexists _, _. split.
    + vm_compute. reflexivity.
    + eapply (collect_throws_on_interruption_or_listener_error host compiler
                (signalAt 1) "/repo" (info [pkgA; pkgC; pkgA])
                (returningListener true) used).
      vm_compute. reflexivity.
  - eexists _, _. split.
    + vm_compute. reflexivity.
    + eapply (collect_throws_on_interruption_or_listener_error host compiler
                noSignal "/repo" (info [pkgA; pkgC]) (Some failingListener)
                used).
      vm_compute. reflexivity.
Defined.

(** A listener that returns changes nothing; one that throws ends the
    run. *)
Lemma listener_sample :
  fst (run noSignal [pkgA; pkgC])
  = fst (collect host compiler noSignal "/repo" (info [pkgA; pkgC]) None used) /\
  fst (collect host compiler noSignal "/repo" (info [pkgA; pkgC])
         (Some failingListener) used) = Throw "listener failed".
Proof.
  destruct (progress_listener_only_observes host compiler noSignal "/repo"
              (info [pkgA; pkgC]) (returningListener true) used)
    as [Hreturns _].
  destruct (progress_listener_only_observes host compiler noSignal "/repo"
              (info [pkgA; pkgC]) (Some failingListener) used)
    as [_ Hthrows].
  split.
  - apply Hreturns. intros l E. injection E as <-. reflexivity.
  - apply (Hthrows failingListener pkgA [pkgC] "listener failed");
      reflexivity.
Defined.

Lemma engine_order_sample :
  Ok (unitRecords host compiler pkgA 10)
  = fst (formatDiagnostics host ([notAssignable] ++ [] ++ [badArgument] ++ [])
           "a" (mkCollector 10 false [])) /\
  List.length (unitRecords host compiler pkgA 10) = 2%nat.
Proof.
  apply (unit_records_follow_engine_order host compiler pkgA 10
           "/repo/packages/a/tsconfig.json"
           (ts.mkConfigFile "/repo/packages/a/tsconfig.json" None)
           (ts.mkParsedCommandLine [] ["/repo/packages/a/tsconfig.json"] tt)
           (ts.mkProgram (Ok [notAssignable]) (Ok []) (Ok [badArgument]) (Ok []))
           [notAssignable] [] [badArgument] []);
    reflexivity.
Defined.

(** ** Detection *)

Lemma no_monorepo_sample :
  rootPath (mkMonorepoInfo false none "/repo" [mkPackageInfo "foo" "/repo" None])
  = "/repo" /\
  (false = false ->
   none = none /\
   (1 <= 1)%nat /\
   Forall (fun p => pkg_path p = "/repo") [mkPackageInfo "foo" "/repo" None]).
Proof.
  apply (result_that_is_no_monorepo host (turbo_detect host)
           (turbo_getPackages host) "/repo" []
           (mkMonorepoInfo false none "/repo" [mkPackageInfo "foo" "/repo" None])).
  reflexivity.
Defined.

Lemma detector_error_sample :
  detectIn turboHost [brokenDetector] = Throw "boom" /\
  detectIn turboHost [halfBrokenDetector] = Throw "EACCES".
Proof.
  split.
  - apply (detector_errors_propagate turboHost (turbo_detect turboHost)
             (turbo_getPackages turboHost) "/repo" [brokenDetector] []
             brokenDetector
             (DEFAULT_DETECTORS turboHost (turbo_detect turboHost)
                (turbo_getPackages turboHost)) "boom").
    + reflexivity.
    + constructor.
    + left. reflexivity.
  - apply (detector_errors_propagate turboHost (turbo_detect turboHost)
             (turbo_getPackages turboHost) "/repo" [halfBrokenDetector] []
             halfBrokenDetector
             (DEFAULT_DETECTORS turboHost (turbo_detect turboHost)
                (turbo_getPackages turboHost)) "EACCES").
    + reflexivity.
    + constructor.
    + right. split; reflexivity.
Defined.

Lemma unnamed_manifest_sample :
  detectMonorepo unnamedHost noTurbo noTurboPackages "/repo" []
  = Ok (mkMonorepoInfo false none "/repo"
          [mkPackageInfo "unknown" "/repo" (Some "0.0.1")]).
Proof.
  apply (unnamed_manifest_is_unknown unnamedHost noTurbo noTurboPackages
           "/repo" [] (mkPackageJson None (Some "0.0.1") None)).
  - repeat constructor.
  - reflexivity.
  - left. reflexivity.
Defined.

Lemma yarn_or_npm_sample :
  type_of_result (detectMonorepo (workspaceHost true) noTurbo noTurboPackages
                    "/repo" []) = Some yarn /\
  type_of_result (detectMonorepo (workspaceHost false) noTurbo noTurboPackages
                    "/repo" []) = Some npm.
Proof.
  split.
  - rewrite (yarn_lock_decides_yarn_or_npm (workspaceHost true) noTurbo
               noTurboPackages "/repo" eq_refl eq_refl eq_refl).
    reflexivity.
  - rewrite (yarn_lock_decides_yarn_or_npm (workspaceHost false) noTurbo
               noTurboPackages "/repo" eq_refl eq_refl eq_refl).
    reflexivity.
Defined.

Lemma broken_pnpm_sample :
  detectIn brokenPnpmHost [] = Ok (mkMonorepoInfo true pnpm "/repo" []).
Proof.
  apply (unusable_pnpm_workspace_is_an_empty_monorepo brokenPnpmHost
           (turbo_detect brokenPnpmHost) (turbo_getPackages brokenPnpmHost)
           "/repo").
  - reflexivity.
  - reflexivity.
  - left. exists "ENOENT". reflexivity.
Defined.

Example enumeration_sample :
  NpmDetector_getPackages (workspaceHost true) "/repo"
  = [ mkPackageInfo "a" "/repo/packages/a" (Some "1.0.0");
      mkPackageInfo "b" "/repo/packages/b" None ].
Proof. reflexivity. Qed.

(** Package ["a"] is enumerated, and it is read from a manifest that
    [packages/*/package.json] matches. *)
Lemma enumeration_glob_sample :
  In (mkPackageInfo "a" "/repo/packages/a" (Some "1.0.0"))
    (NpmDetector_getPackages (workspaceHost true) "/repo") <->
  readFromGlob (workspaceHost true) "/repo" ["packages/*/package.json"]
    (mkPackageInfo "a" "/repo/packages/a" (Some "1.0.0")).
Proof.
  exact (proj1 (enumerated_packages_come_from_manifests (workspaceHost true)
                  "/repo")
           (mkPackageJson (Some "mono") None
              (Some (WorkspacesArray ["packages/*"])))
           (WorkspacesArray ["packages/*"]) eq_refl eq_refl
           (mkPackageInfo "a" "/repo/packages/a" (Some "1.0.0"))).
Defined.

Lemma unrecognised_root_sample :
  getPackages (NpmDetector emptyHost) "/repo" = Ok [] /\
  getPackages (YarnDetector emptyHost) "/repo" = Ok [] /\
  getPackages (PnpmDetector emptyHost) "/repo" = Ok [].
Proof.
  destruct (unrecognised_root_has_no_packages emptyHost "/repo") as [Hnpm Hpnpm].
  destruct (Hnpm eq_refl) as [H1 H2].
  split; [exact H1|]. split; [exact H2|]. exact (Hpnpm eq_refl).
Defined.

Lemma nx_projects_sample :
  Forall2 (ofProject nxHost "/repo")
    [("web", "apps/web"); ("util", "libs/util")]
    (NxDetector_getPackages nxHost "/repo").
Proof.
  apply (proj1 (nx_json_projects_decide nxHost "/repo"
                  (mkNxJson (Some [("web", "apps/web"); ("util", "libs/util")]))
                  [("web", "apps/web"); ("util", "libs/util")]
                  eq_refl eq_refl)).
  discriminate.
Defined.

Example nx_packages_sample :
  NxDetector_getPackages nxHost "/repo"
  = [ mkPackageInfo "@acme/web" "/repo/apps/web" (Some "2.0.0");
      mkPackageInfo "util" "/repo/libs/util" None ].
Proof. reflexivity. Qed.

(** The sample root has a manifest named ["foo"] and a [tsconfig.json]
    that type-checks without diagnostics. *)
Lemma plain_repository_sample :
  exists info,
    detectIn host [] = Ok info /\
    fst (collect host compiler noSignal "/repo" info (returningListener true)
           used)
    = Ok (unitRecords host compiler (mkPackageInfo "foo" "/repo" None) 0).
Proof.
  destruct (plain_repository_is_checked_at_its_root host compiler noSignal
              (turbo_detect host) (turbo_getPackages host) "/repo" [] true used
              ltac:(repeat constructor))
    as (info & Hdetect & Hnamed & _).
  exists info. split; [exact Hdetect|].
  exact (Hnamed (mkPackageJson (Some "foo") None None) eq_refl eq_refl).
Defined.

End MoreRuns.
